(** * Event-source plugins of ZenML: configuration validation, event
      processing and flavor introspection

    This development embeds
    [src/zenml/event_sources/base_event_source_plugin.py] and states the
    properties of its specification over that embedding.

    Layout:
    - [Py]: the fragment of Python the module relies on: values, exception
      classes with their single-inheritance chain, results of calls that
      may raise;
    - [Json]: [json.dumps] and [json.loads] on the values of [Py];
    - [Pydantic]: model classes as the module uses them (a constructor
      that validates keyword arguments, and [schema_json]);
    - [EventSources]: the module itself, method by method;
    - [Webhook]: one concrete flavor with its plugin, used to run the code;
    - the theorems. *)

From Stdlib Require Import List String Ascii ZArith NArith Bool Lia.
From Stdlib Require Import DecimalString.
Import ListNotations.
Local Open Scope string_scope.
Local Open Scope list_scope.
Set Warnings "-register-all".

(* ===================================================================== *)
(** ** Python values, exceptions and results *)
(* ===================================================================== *)

Module Py.

(** The values that travel through the module as [Any]: what a decoded
    JSON document, a configuration payload or an exception argument can
    hold.  A [dict] keeps its insertion order. *)
Inductive value : Type :=
| VNone
| VBool (b : bool)
| VInt (z : Z)
| VStr (s : string)
| VList (l : list value)
| VDict (d : list (string * value)).

(** [Dict[str, Any]]. *)
Definition Dict : Type := list (string * value).

(** [d.get(k)]: the first binding wins, keys of a [dict] being unique. *)
Fixpoint dict_get (k : string) (d : Dict) : option value :=
  match d with
  | [] => None
  | (k', v) :: r => if String.eqb k k' then Some v else dict_get k r
  end.

Definition dict_keys (d : Dict) : list string := map fst d.

(** Exception classes.  The built-in ones the module meets are
    constructors; [Subclass name base] is a class declared elsewhere by
    [class name(base)], so the hierarchy is open. *)
Inductive pyclass : Type :=
| BaseException
| Exception
| ValueError
| TypeError
| LookupError
| KeyError
| RuntimeError
| Subclass (name : string) (base : pyclass).

(** The method resolution order of a class (single inheritance). *)
Fixpoint mro (c : pyclass) : list pyclass :=
  c :: match c with
       | BaseException => []
       | Exception => [BaseException]
       | ValueError | TypeError | LookupError | RuntimeError =>
           [Exception; BaseException]
       | KeyError => [LookupError; Exception; BaseException]
       | Subclass _ b => mro b
       end.

Fixpoint pyclass_eqb (c d : pyclass) : bool :=
  match c, d with
  | BaseException, BaseException
  | Exception, Exception
  | ValueError, ValueError
  | TypeError, TypeError
  | LookupError, LookupError
  | KeyError, KeyError
  | RuntimeError, RuntimeError => true
  | Subclass n b, Subclass n' b' => String.eqb n n' && pyclass_eqb b b'
  | _, _ => false
  end.

(** [issubclass(c, d)]. *)
Definition issubclass (c d : pyclass) : bool :=
  existsb (pyclass_eqb d) (mro c).

(** An exception object: its class, its [args], and the [__context__]
    that Python sets when it is raised while another exception is being
    handled. *)
Inductive exn : Type :=
  mk_exn { exn_type : pyclass;
           exn_args : list value;
           exn_context : option exn }.

(** [isinstance(e, c)]: what an [except c:] clause tests. *)
Definition isinstance (e : exn) (c : pyclass) : bool :=
  issubclass (exn_type e) c.

(** [raise cls(msg)] outside of any handler. *)
Definition new_exn (c : pyclass) (args : list value) : exn :=
  mk_exn c args None.

(** [raise cls(msg)] inside [except ... :] while [handled] is being
    handled: implicit chaining. *)
Definition new_exn_handling (handled : exn) (c : pyclass)
    (args : list value) : exn :=
  mk_exn c args (Some handled).

(** The outcome of evaluating an expression: a value or a raised
    exception. *)
Inductive result (A : Type) : Type :=
| Ok (a : A)
| Raise (e : exn).
Arguments Ok {A} a.
Arguments Raise {A} e.

Definition bind {A B : Type} (r : result A) (k : A -> result B) : result B :=
  match r with
  | Ok a => k a
  | Raise e => Raise e
  end.

Definition raised {A : Type} (r : result A) : option exn :=
  match r with
  | Ok _ => None
  | Raise e => Some e
  end.

End Py.
Import Py.

Declare Scope py_scope.
Delimit Scope py_scope with py.
Notation "x <- c ;; k" := (Py.bind c (fun x => k))
  (at level 61, c at next level, right associativity) : py_scope.

(* ===================================================================== *)
(** ** [json.dumps] and [json.loads] *)
(* ===================================================================== *)

(** The standard-library functions on objects, arrays, strings of ASCII
    characters, integers, booleans and null, with the default separators of
    [json.dumps].  [json.loads] raises [JSONDecodeError], a subclass of
    [ValueError], on a text that is not JSON.  Numbers with a fraction or
    an exponent and characters beyond ASCII have no counterpart in [value]:
    on a text that holds one this [loads] raises, where the library
    decodes. *)
Module Json.
Local Open Scope string_scope.

Definition JSONDecodeError : pyclass := Subclass "JSONDecodeError" ValueError.

Definition dq : ascii := "034"%char.
Definition backslash : ascii := "092"%char.

Definition hex_digit (n : nat) : ascii :=
  if (n <? 10)%nat then ascii_of_nat (48 + n) else ascii_of_nat (87 + n).

(** The escape of one character: the quote, the backslash and the control
    characters. *)
Definition escape_char (c : ascii) : string :=
  if Ascii.eqb c dq || Ascii.eqb c backslash
  then String backslash (String c EmptyString)
  else if Ascii.eqb c "010" then String backslash "n"
  else if Ascii.eqb c "013" then String backslash "r"
  else if Ascii.eqb c "009" then String backslash "t"
  else if Ascii.eqb c "008" then String backslash "b"
  else if Ascii.eqb c "012" then String backslash "f"
  else if (nat_of_ascii c <? 32)%nat
  then String backslash
         (String "u" (String "0" (String "0"
            (String (hex_digit (nat_of_ascii c / 16))
               (String (hex_digit (nat_of_ascii c mod 16)) EmptyString)))))
  else String c EmptyString.

Fixpoint escape (s : string) : string :=
  match s with
  | EmptyString => EmptyString
  | String c r => escape_char c ++ escape r
  end.

Definition quote (s : string) : string :=
  String dq (escape s ++ String dq EmptyString).

Fixpoint dumps (v : value) : string :=
  match v with
  | VNone => "null"
  | VBool true => "true"
  | VBool false => "false"
  | VInt z => NilZero.string_of_int (Z.to_int z)
  | VStr s => quote s
  | VList l =>
      "[" ++ (fix items (l : list value) : string :=
                match l with
                | [] => ""
                | [x] => dumps x
                | x :: r => dumps x ++ ", " ++ items r
                end) l ++ "]"
  | VDict d =>
      "{" ++ (fix members (d : list (string * value)) : string :=
                match d with
                | [] => ""
                | [(k, x)] => quote k ++ ": " ++ dumps x
                | (k, x) :: r => quote k ++ ": " ++ dumps x ++ ", " ++ members r
                end) d ++ "}"
  end.

Definition is_ws (c : ascii) : bool :=
  Ascii.eqb c " " || Ascii.eqb c "010" || Ascii.eqb c "013" || Ascii.eqb c "009".

Fixpoint skip_ws (s : string) : string :=
  match s with
  | String c r => if is_ws c then skip_ws r else s
  | EmptyString => s
  end.

Definition hex_value (c : ascii) : option nat :=
  let n := nat_of_ascii c in
  if (48 <=? n)%nat && (n <=? 57)%nat then Some (n - 48)
  else if (97 <=? n)%nat && (n <=? 102)%nat then Some (n - 87)
  else if (65 <=? n)%nat && (n <=? 70)%nat then Some (n - 55)
  else None.

(** The character of a [u] escape, when it is an ASCII one. *)
Definition unicode_escape (a b c d : ascii) : option ascii :=
  match hex_value a, hex_value b, hex_value c, hex_value d with
  | Some x, Some y, Some z, Some t =>
      let n := ((x * 16 + y) * 16 + z) * 16 + t in
      if (n <? 128)%nat then Some (ascii_of_nat n) else None
  | _, _, _, _ => None
  end.

(** The character of a one-letter escape. *)
Definition simple_escape (e : ascii) : option ascii :=
  if Ascii.eqb e dq || Ascii.eqb e backslash || Ascii.eqb e "/" then Some e
  else if Ascii.eqb e "n" then Some "010"%char
  else if Ascii.eqb e "r" then Some "013"%char
  else if Ascii.eqb e "t" then Some "009"%char
  else if Ascii.eqb e "b" then Some "008"%char
  else if Ascii.eqb e "f" then Some "012"%char
  else None.

(** The body of a string literal, after its opening quote.  A control
    character may not stand unescaped. *)
Fixpoint scan_string (s : string) : option (string * string) :=
  match s with
  | EmptyString => None
  | String c r =>
      if Ascii.eqb c dq then Some (EmptyString, r)
      else if Ascii.eqb c backslash then
        match r with
        | String "u" (String a (String b (String x (String y r')))) =>
            match unicode_escape a b x y, scan_string r' with
            | Some ch, Some (body, rest) => Some (String ch body, rest)
            | _, _ => None
            end
        | String e r' =>
            match simple_escape e, scan_string r' with
            | Some ch, Some (body, rest) => Some (String ch body, rest)
            | _, _ => None
            end
        | EmptyString => None
        end
      else if (nat_of_ascii c <? 32)%nat then None
      else match scan_string r with
           | Some (body, rest) => Some (String c body, rest)
           | None => None
           end
  end.

Definition is_digit (c : ascii) : bool :=
  (48 <=? nat_of_ascii c)%nat && (nat_of_ascii c <=? 57)%nat.

Fixpoint scan_digits (s : string) : string * string :=
  match s with
  | String c r =>
      if is_digit c then let (ds, rest) := scan_digits r in (String c ds, rest)
      else (EmptyString, s)
  | EmptyString => (EmptyString, s)
  end.

(** The digits of an integer: a lone zero, or digits that start with
    another digit than zero. *)
Definition scan_integer_part (s : string) : string * string :=
  match s with
  | String "0" r => ("0", r)
  | _ => scan_digits s
  end.

Definition starts_fraction (s : string) : bool :=
  match s with
  | String c _ => Ascii.eqb c "." || Ascii.eqb c "e" || Ascii.eqb c "E"
  | EmptyString => false
  end.

Definition scan_int (s : string) : option (Z * string) :=
  let (sign, body) :=
    match s with
    | String "-" r => ("-", r)
    | _ => ("", s)
    end in
  let (ds, rest) := scan_integer_part body in
  match ds with
  | EmptyString => None
  | _ => if starts_fraction rest then None
         else match NilZero.int_of_string (sign ++ ds) with
              | Some i => Some (Z.of_int i, rest)
              | None => None
              end
  end.

(** A member of an object that is being built: a name met again keeps its
    place and takes the later value. *)
Fixpoint set_member (k : string) (v : value) (d : list (string * value))
    : list (string * value) :=
  match d with
  | [] => [(k, v)]
  | (k', v') :: r =>
      if String.eqb k k' then (k, v) :: r else (k', v') :: set_member k v r
  end.

Definition object_of_pairs (pairs : list (string * value))
    : list (string * value) :=
  fold_left (fun d kv => set_member (fst kv) (snd kv) d) pairs [].

Fixpoint strip_prefix (p s : string) : option string :=
  match p, s with
  | EmptyString, _ => Some s
  | String a p', String b s' => if Ascii.eqb a b then strip_prefix p' s' else None
  | String _ _, EmptyString => None
  end.

(** Recursive descent, with a bound on the number of nested calls. *)
Fixpoint parse_value (fuel : nat) (s : string) : option (value * string) :=
  match fuel with
  | O => None
  | S n =>
      match skip_ws s with
      | String "{" r =>
          match skip_ws r with
          | String "}" r' => Some (VDict [], r')
          | _ => match parse_members n r with
                 | Some (d, r') => Some (VDict (object_of_pairs d), r')
                 | None => None
                 end
          end
      | String "[" r =>
          match skip_ws r with
          | String "]" r' => Some (VList [], r')
          | _ => match parse_items n r with
                 | Some (l, r') => Some (VList l, r')
                 | None => None
                 end
          end
      | String "034" r =>
          match scan_string r with
          | Some (body, r') => Some (VStr body, r')
          | None => None
          end
      | String _ _ as t =>
          match strip_prefix "null" t, strip_prefix "true" t,
                strip_prefix "false" t with
          | Some r', _, _ => Some (VNone, r')
          | _, Some r', _ => Some (VBool true, r')
          | _, _, Some r' => Some (VBool false, r')
          | _, _, _ => match scan_int t with
                       | Some (z, r') => Some (VInt z, r')
                       | None => None
                       end
          end
      | EmptyString => None
      end
  end

with parse_items (fuel : nat) (s : string) : option (list value * string) :=
  match fuel with
  | O => None
  | S n =>
      match parse_value n s with
      | Some (x, r) =>
          match skip_ws r with
          | String "," r' =>
              match parse_items n r' with
              | Some (l, r'') => Some (x :: l, r'')
              | None => None
              end
          | String "]" r' => Some ([x], r')
          | _ => None
          end
      | None => None
      end
  end

with parse_members (fuel : nat) (s : string)
    : option (list (string * value) * string) :=
  match fuel with
  | O => None
  | S n =>
      match skip_ws s with
      | String "034" r =>
          match scan_string r with
          | Some (k, r1) =>
              match skip_ws r1 with
              | String ":" r2 =>
                  match parse_value n r2 with
                  | Some (x, r3) =>
                      match skip_ws r3 with
                      | String "," r4 =>
                          match parse_members n r4 with
                          | Some (d, r5) => Some ((k, x) :: d, r5)
                          | None => None
                          end
                      | String "}" r4 => Some ([(k, x)], r4)
                      | _ => None
                      end
                  | None => None
                  end
              | _ => None
              end
          | None => None
          end
      | _ => None
      end
  end.

Definition loads (s : string) : result value :=
  match parse_value (2 * String.length s + 2) s with
  | Some (v, rest) =>
      match skip_ws rest with
      | EmptyString => Ok v
      | _ => Raise (new_exn JSONDecodeError [VStr "Extra data"])
      end
  | None => Raise (new_exn JSONDecodeError [VStr "Expecting value"])
  end.

End Json.


(* ===================================================================== *)
(** ** Pydantic model classes *)
(* ===================================================================== *)

Module Pydantic.
Local Open Scope string_scope.

(** [pydantic.ValidationError], which derives from [ValueError]. *)
Definition ValidationError : pyclass := Subclass "ValidationError" ValueError.

(** An instance of a model class: the name of its class and its field
    values. *)
Record Instance : Type :=
  { instance_class : string;
    instance_fields : Dict }.

(** What the module uses of a model class [cls]: the call of [cls] on
    unpacked keyword arguments, which returns an instance or raises, and
    [cls.schema_json()].  Nothing
    is assumed on either: a class may carry validators of its own, and its
    constructor may raise any exception. *)
Record ModelClass : Type :=
  { class_name : string;
    init : Dict -> result Instance;
    schema_json : string }.

(** *** Declared models

    A model class written as a list of annotated fields of the strict
    types, as in
    [class C(BaseModel): repo_url: StrictStr; depth: StrictInt = 1].
    Unknown keyword arguments are ignored, the default of pydantic. *)

Inductive FieldType : Type := StrictStr | StrictInt | StrictBool.

Record ModelField : Type :=
  { field_name : string;
    field_title : string;
    field_type : FieldType;
    field_default : option value (* [None]: the field is required *) }.

Definition field_required (f : ModelField) : bool :=
  match field_default f with
  | None => true
  | Some _ => false
  end.

Definition has_type (t : FieldType) (v : value) : bool :=
  match t, v with
  | StrictStr, VStr _ => true
  | StrictInt, VInt _ => true
  | StrictBool, VBool _ => true
  | _, _ => false
  end.

Definition schema_type (t : FieldType) : string :=
  match t with
  | StrictStr => "string"
  | StrictInt => "integer"
  | StrictBool => "boolean"
  end.

(** One entry of [ValidationError.errors()]. *)
Definition error_entry (loc msg type : string) : value :=
  VDict [("loc", VList [VStr loc]); ("msg", VStr msg); ("type", VStr type)].

Definition type_error (f : ModelField) : value :=
  match field_type f with
  | StrictStr => error_entry (field_name f) "str type expected" "type_error.str"
  | StrictInt =>
      error_entry (field_name f) "value is not a valid integer"
        "type_error.integer"
  | StrictBool =>
      error_entry (field_name f) "value is not a valid boolean"
        "value_error.strictbool"
  end.

(** Validation of one field: its value, or the error entry. *)
Definition validate_field (f : ModelField) (kwargs : Dict)
    : value + value :=
  match dict_get (field_name f) kwargs with
  | None =>
      match field_default f with
      | Some d => inl d
      | None =>
          inr (error_entry (field_name f) "field required"
                 "value_error.missing")
      end
  | Some VNone =>
      inr (error_entry (field_name f) "none is not an allowed value"
             "type_error.none.not_allowed")
  | Some v => if has_type (field_type f) v then inl v else inr (type_error f)
  end.

(** All fields are validated, and every failure is reported. *)
Fixpoint validate_model (fs : list ModelField) (kwargs : Dict)
    : Dict * list value :=
  match fs with
  | [] => ([], [])
  | f :: r =>
      let (values, errors) := validate_model r kwargs in
      match validate_field f kwargs with
      | inl v => ((field_name f, v) :: values, errors)
      | inr e => (values, e :: errors)
      end
  end.

(** The names of the fields that failed, read off [e.errors()]. *)
Definition failed_fields (fs : list ModelField) (kwargs : Dict)
    : list string :=
  map field_name
    (filter (fun f => match validate_field f kwargs with
                      | inl _ => false
                      | inr _ => true
                      end) fs).

Definition model_init (name : string) (fs : list ModelField) (kwargs : Dict)
    : result Instance :=
  match validate_model fs kwargs with
  | (values, []) => Ok {| instance_class := name; instance_fields := values |}
  | (_, errors) => Raise (new_exn ValidationError [VList errors])
  end.

Definition field_schema (f : ModelField) : string * value :=
  (field_name f,
   VDict ([("title", VStr (field_title f))]
          ++ match field_default f with
             | Some d => [("default", d)]
             | None => []
             end
          ++ [("type", VStr (schema_type (field_type f)))])%list).

(** [cls.schema()]: title, docstring, properties, required fields. *)
Definition model_schema (name doc : string) (fs : list ModelField) : Dict :=
  ([("title", VStr name);
    ("description", VStr doc);
    ("type", VStr "object");
    ("properties", VDict (map field_schema fs))]
   ++ match filter field_required fs with
      | [] => []
      | req => [("required", VList (map (fun f => VStr (field_name f)) req))]
      end)%list.

(** [class name(BaseModel): doc; fs]. *)
Definition BaseModel (name doc : string) (fs : list ModelField) : ModelClass :=
  {| class_name := name;
     init := model_init name fs;
     schema_json := Json.dumps (VDict (model_schema name doc fs)) |}.

(** The refusal of a value that cannot be made a [dict]. *)
Definition dict_error (v : value) : result Dict :=
  Raise (new_exn ValidationError
           [VList [VDict [("msg", VStr "value is not a valid dict");
                          ("type", VStr "type_error.dict")]]]).

End Pydantic.
Import Pydantic.

(* ===================================================================== *)
(** ** The event-source plugin module *)
(* ===================================================================== *)

Module EventSources.
Local Open Scope string_scope.

(** [uuid.UUID], by its 128-bit integer value. *)
Definition UUID : Type := N.

(** [class BaseEvent(BaseModel)]: an inbound event is an instance of a
    model class deriving from it. *)
Definition BaseEvent : Type := Instance.

(** Modelled from the spec: [zenml.models.EventSourceRequest], declared
    outside this module: a creation request carries a flavor name and a
    raw configuration payload. *)
Record EventSourceRequest : Type :=
  { flavor : string;
    configuration : Dict }.

(** Modelled from the spec: [zenml.enums.PluginType], declared outside this
    module: the plugin-type tag.  This module names one member,
    [EVENT_SOURCE]. *)
Inductive PluginType : Type :=
| EVENT_SOURCE
| OtherPluginType (name : string).

(** What a run of a method leaves behind for an observer: the calls of the
    abstract methods, with their arguments, and the records handed to the
    logger. *)
Inductive call : Type :=
| Call_create_event_source (event_source : EventSourceRequest)
| Call_get_all_relevant_event_sources (event : BaseEvent)
| Call_get_matching_triggers (event_source_ids : list UUID) (event : BaseEvent)
| Logger_info (msg : string) (arg : list UUID).

Definition is_Call_create_event_source (c : call) : bool :=
  match c with
  | Call_create_event_source _ => true
  | _ => false
  end.

Definition is_Call_get_matching_triggers (c : call) : bool :=
  match c with
  | Call_get_matching_triggers _ _ => true
  | _ => false
  end.

(** The truth value of a list: [if xs:]. *)
Definition truthy {A : Type} (xs : list A) : bool :=
  match xs with
  | [] => false
  | _ :: _ => true
  end.

(** [try: body  except c: handler]. *)
Definition try_except {A : Type} (body : result A) (c : pyclass)
    (handler : exn -> result A) : result A :=
  match body with
  | Ok a => Ok a
  | Raise e => if isinstance e c then handler e else Raise e
  end.

(* --------------------------------------------------------------------- *)
(** *** Plugin *)
(* --------------------------------------------------------------------- *)

Section Plugin.

(** The state of whatever the abstract methods work on (the store). *)
Variable W : Type.

(** [zenml.models.EventSourceResponse], opaque to this module. *)
Variable EventSourceResponse : Type.

(** [class EventSourceConfig(BasePluginConfig)]: it adds nothing to
    [BasePluginConfig], which is declared outside this module. *)
Variable EventSourceConfig : ModelClass.

(** The state a method runs in: the store, and the calls made so far,
    oldest first. *)
Record state : Type :=
  { world : W;
    trace : list call }.

(** A method body: it ends in a value or an exception, and what it did to
    the state stays done in both cases. *)
Definition M (A : Type) : Type := state -> result A * state.

Definition ret {A : Type} (a : A) : M A := fun s => (Ok a, s).

Definition mbind {A B : Type} (m : M A) (k : A -> M B) : M B :=
  fun s =>
    match m s with
    | (Ok a, s') => k a s'
    | (Raise e, s') => (Raise e, s')
    end.

Definition lift {A : Type} (r : result A) : M A := fun s => (r, s).

(** The call of an abstract method: it is recorded, then runs on the
    store. *)
Definition invoke {A : Type} (c : call) (method : W -> result A * W) : M A :=
  fun s =>
    let (r, w) := method (world s) in
    (r, {| world := w; trace := trace s ++ [c] |}).

(** [logger.info(msg, arg)]. *)
Definition logger_info (msg : string) (arg : list UUID) : M unit :=
  fun s => (Ok tt, {| world := world s;
                      trace := trace s ++ [Logger_info msg arg] |}).

Notation "x <- c ;; k" := (mbind c (fun x => k))
  (at level 61, c at next level, right associativity).
Notation "c ;; k" := (mbind c (fun _ => k))
  (at level 61, right associativity).

(** [class BaseEventSourcePlugin(BasePlugin, ABC)]: a concrete plugin
    supplies the three abstract methods and may override the property
    [config_class]. *)
Record BaseEventSourcePlugin : Type :=
  { config_class_override : option ModelClass;
    _create_event_source :
      EventSourceRequest -> W -> result EventSourceResponse * W;
    _get_all_relevant_event_sources :
      BaseEvent -> W -> result (list UUID) * W;
    _get_matching_triggers :
      list UUID -> BaseEvent -> W -> result (list UUID) * W }.

(** The property [config_class]: [EventSourceConfig] unless overridden. *)
Definition config_class (self : BaseEventSourcePlugin) : ModelClass :=
  match config_class_override self with
  | Some c => c
  | None => EventSourceConfig
  end.

Definition _fail_if_event_source_configuration_invalid
    (self : BaseEventSourcePlugin) (event_source : EventSourceRequest)
    : result unit :=
  try_except
    (Py.bind (init (config_class self) (configuration event_source))
       (fun _ => Ok tt))
    ValueError
    (fun e => Raise (new_exn_handling e ValueError
                       [VStr "Invalid Configuration."])).

Definition create_event_source (self : BaseEventSourcePlugin)
    (event_source : EventSourceRequest) : M EventSourceResponse :=
  lift (_fail_if_event_source_configuration_invalid self event_source) ;;
  invoke (Call_create_event_source event_source)
    (_create_event_source self event_source).

Definition process_event (self : BaseEventSourcePlugin) (event : BaseEvent)
    : M unit :=
  event_source_ids <-
    invoke (Call_get_all_relevant_event_sources event)
      (_get_all_relevant_event_sources self event) ;;
  if truthy event_source_ids then
    trigger_ids <-
      invoke (Call_get_matching_triggers event_source_ids event)
        (_get_matching_triggers self event_source_ids event) ;;
    logger_info
      "An event came in and will be forwarded to the following subscriber %s"
      trigger_ids
  else ret tt.

(** A run from a store, with nothing called yet. *)
Definition run {A : Type} (m : M A) (w : W) : result A * state :=
  m {| world := w; trace := [] |}.

End Plugin.

Arguments world {W} s.
Arguments trace {W} s.
Arguments Build_state {W} world trace.
Arguments config_class_override {W EventSourceResponse} self : rename.
Arguments _create_event_source {W EventSourceResponse} self event_source w
  : rename.
Arguments _get_all_relevant_event_sources {W EventSourceResponse} self event w
  : rename.
Arguments _get_matching_triggers {W EventSourceResponse} self
  event_source_ids event w : rename.
Arguments config_class {W EventSourceResponse} EventSourceConfig self.
Arguments _fail_if_event_source_configuration_invalid {W EventSourceResponse}
  EventSourceConfig self event_source.
Arguments create_event_source {W EventSourceResponse} EventSourceConfig self
  event_source s.
Arguments process_event {W EventSourceResponse} self event s.
Arguments run {W A} m w.

(* --------------------------------------------------------------------- *)
(** *** Flavors *)
(* --------------------------------------------------------------------- *)

(** [class EventFlavorResponse(BasePluginFlavorResponse)].

    Modelled from the spec: [BasePluginFlavorResponse], declared outside
    this module, brings the flavor name and the plugin-type tag. *)
Record EventFlavorResponse : Type :=
  { flavor_name : string;
    plugin_type : PluginType;
    source_config_schema : Dict;
    filter_config_schema : Dict }.

(** A field of a response, as [dict()] returns it. *)
Inductive field_value : Type :=
| FStr (s : string)
| FPluginType (t : PluginType)
| FDict (d : Dict).

(** [response.dict()]: the fields by name, inherited ones first. *)
Definition EventFlavorResponse_dict (r : EventFlavorResponse)
    : list (string * field_value) :=
  [("flavor_name", FStr (flavor_name r));
   ("plugin_type", FPluginType (plugin_type r));
   ("source_config_schema", FDict (source_config_schema r));
   ("filter_config_schema", FDict (filter_config_schema r))].

(** [class BaseEventSourcePluginFlavor(BasePluginFlavor, ABC)]: a concrete
    flavor sets the class attributes [FLAVOR], [EVENT_SOURCE_CONFIG_CLASS]
    and [EVENT_FILTER_CONFIG_CLASS]. *)
Record BaseEventSourcePluginFlavor : Type :=
  { FLAVOR : string;
    EVENT_SOURCE_CONFIG_CLASS : ModelClass;
    EVENT_FILTER_CONFIG_CLASS : ModelClass }.

(** [TYPE: ClassVar[PluginType] = PluginType.EVENT_SOURCE]. *)
Definition TYPE (cls : BaseEventSourcePluginFlavor) : PluginType :=
  EVENT_SOURCE.

Definition get_event_filter_config_schema (cls : BaseEventSourcePluginFlavor)
    : result value :=
  Json.loads (schema_json (EVENT_SOURCE_CONFIG_CLASS cls)).

Definition get_event_source_config_schema (cls : BaseEventSourcePluginFlavor)
    : result value :=
  Json.loads (schema_json (EVENT_FILTER_CONFIG_CLASS cls)).

Section Response.

(** What pydantic makes of a value that is not a [dict] where a field
    annotated [Dict[str, Any]] is expected ([dict(v)], then the validation
    of the keys): not needed for decoded schemas, which are dicts. *)
Variable dict_coerce : value -> result Dict.

Definition dict_validator (v : value) : result Dict :=
  match v with
  | VDict d => Ok d
  | _ => dict_coerce v
  end.

(** The call [EventFlavorResponse(flavor_name=..., ...)]. *)
Definition EventFlavorResponse_init (flavor_name : string)
    (plugin_type : PluginType) (source_config_schema : value)
    (filter_config_schema : value) : result EventFlavorResponse :=
  (s <- dict_validator source_config_schema ;;
   f <- dict_validator filter_config_schema ;;
   Ok {| flavor_name := flavor_name;
         plugin_type := plugin_type;
         source_config_schema := s;
         filter_config_schema := f |})%py.

Definition get_plugin_flavor_response_model
    (cls : BaseEventSourcePluginFlavor) : result EventFlavorResponse :=
  (source <- get_event_source_config_schema cls ;;
   filter <- get_event_filter_config_schema cls ;;
   EventFlavorResponse_init (FLAVOR cls) (TYPE cls) source filter)%py.

End Response.

End EventSources.
Import EventSources.

(* ===================================================================== *)
(** ** A concrete flavor: webhooks *)
(* ===================================================================== *)

(** The abstract methods of the module have no body in it, and the concrete
    flavors live elsewhere.  This flavor follows the specification: its
    scenario (a webhook source configured with a repository URL, triggers
    filtering on the branch) for the data, and its description of the
    extension points for the methods. *)
Module Webhook.
Local Open Scope string_scope.

Definition required_str (name title : string) : ModelField :=
  {| field_name := name;
     field_title := title;
     field_type := StrictStr;
     field_default := None |}.

(** [class EventSourceConfig(BasePluginConfig)], with no field. *)
Definition EventSourceConfig : ModelClass :=
  BaseModel "EventSourceConfig" "The Event Source configuration." [].

Definition WebhookEventSourceConfig_fields : list ModelField :=
  [required_str "repo_url" "Repo Url";
   {| field_name := "active";
      field_title := "Active";
      field_type := StrictBool;
      field_default := Some (VBool true) |}].

Definition WebhookEventSourceConfig : ModelClass :=
  BaseModel "WebhookEventSourceConfig" "Configuration of a webhook source."
    WebhookEventSourceConfig_fields.

(** The same class with a validator of its own, which refuses the URLs of
    an unreachable host by raising something else than a [ValueError];
    pydantic lets such an exception through. *)
Definition ProbingEventSourceConfig : ModelClass :=
  {| class_name := "ProbingEventSourceConfig";
     init := fun kwargs =>
       match dict_get "repo_url" kwargs with
       | Some (VStr "https://unreachable/") =>
           Raise (new_exn RuntimeError [VStr "host unreachable"])
       | _ => init WebhookEventSourceConfig kwargs
       end;
     schema_json := schema_json WebhookEventSourceConfig |}.

Definition WebhookEventFilterConfig : ModelClass :=
  BaseModel "WebhookEventFilterConfig" "Filter on the branch of a push."
    [required_str "branch" "Branch"].

Definition WebhookEvent : ModelClass :=
  BaseModel "WebhookEvent" "A push to a repository."
    [required_str "repo_url" "Repo Url"; required_str "branch" "Branch"].

Definition WebhookEventSourceFlavor : BaseEventSourcePluginFlavor :=
  {| FLAVOR := "webhook";
     EVENT_SOURCE_CONFIG_CLASS := WebhookEventSourceConfig;
     EVENT_FILTER_CONFIG_CLASS := WebhookEventFilterConfig |}.

(** *** The store *)

(** A persisted event source: its identifier, its flavor and its
    configuration.  It also serves as the response to a creation. *)
Record EventSource : Type :=
  { event_source_id : UUID;
    event_source_flavor : string;
    event_source_configuration : Dict }.

(** A trigger registered against an event source, with its own filter
    configuration.  The store holds one row per registration, and does not
    forbid two rows with the same trigger. *)
Record Trigger : Type :=
  { trigger_id : UUID;
    trigger_event_source : UUID;
    trigger_filter : Instance }.

Record Store : Type :=
  { event_sources : list EventSource;
    triggers : list Trigger }.

(** *** The filter *)

(** [getattr(o, name, None)]. *)
Definition attribute (o : Instance) (name : string) : option value :=
  dict_get name (instance_fields o).

(** One field of a filter against the field of the same name of the event:
    equality of strings; an event without the field, or with something else
    than a string there, does not match. *)
Definition field_matches (event : BaseEvent) (constraint : string * value)
    : bool :=
  match snd constraint, attribute event (fst constraint) with
  | VStr expected, Some (VStr actual) => String.eqb expected actual
  | _, _ => false
  end.

(** Modelled from the spec: [EventFilterConfig.event_matches_filter], which
    is abstract in the module: the filter is a predicate over events, here
    the conjunction of its fields as in the scenario [branch == main]; it
    returns [False] on an event it cannot interpret. *)
Definition event_matches_filter (self : Instance) (event : BaseEvent)
    : result bool :=
  Ok (forallb (field_matches event) (instance_fields self)).

(** *** The extension points *)

Definition mem (x : UUID) (xs : list UUID) : bool := existsb (N.eqb x) xs.

(** Modelled from the spec: [_get_all_relevant_event_sources], abstract in
    the module: the persisted event sources of this flavor whose repository
    URL is the one embedded in the event. *)
Definition relevant_event_sources (event : BaseEvent) (w : Store)
    : list UUID :=
  map event_source_id
    (filter (fun s =>
               String.eqb (event_source_flavor s) "webhook"
               && match dict_get "repo_url" (event_source_configuration s),
                        attribute event "repo_url" with
                  | Some (VStr a), Some (VStr b) => String.eqb a b
                  | _, _ => false
                  end)
       (event_sources w)).

(** A filter that fails counts as no match. *)
Definition filter_accepts (t : Trigger) (event : BaseEvent) : bool :=
  match event_matches_filter (trigger_filter t) event with
  | Ok b => b
  | Raise _ => false
  end.

(** Modelled from the spec: [_get_matching_triggers], abstract in the
    module: every trigger registered against one of the given event sources
    whose filter matches the event, each trigger once. *)
Definition matching_triggers (event_source_ids : list UUID)
    (event : BaseEvent) (w : Store) : list UUID :=
  nodup N.eq_dec
    (map trigger_id
       (filter (fun t => mem (trigger_event_source t) event_source_ids
                         && filter_accepts t event)
          (triggers w))).

(** Modelled from the spec: [_create_event_source], abstract in the module:
    it persists the event source under a fresh identifier and returns it. *)
Definition persist_event_source (event_source : EventSourceRequest)
    (w : Store) : EventSource * Store :=
  let created :=
    {| event_source_id := N.of_nat (S (List.length (event_sources w)));
       event_source_flavor := flavor event_source;
       event_source_configuration := configuration event_source |} in
  (created, {| event_sources := (event_sources w ++ [created])%list;
               triggers := triggers w |}).

Definition WebhookEventSourcePlugin : BaseEventSourcePlugin Store EventSource :=
  {| config_class_override := Some WebhookEventSourceConfig;
     _create_event_source := fun event_source w =>
       let (created, w') := persist_event_source event_source w in
       (Ok created, w');
     _get_all_relevant_event_sources := fun event w =>
       (Ok (relevant_event_sources event w), w);
     _get_matching_triggers := fun event_source_ids event w =>
       (Ok (matching_triggers event_source_ids event w), w) |}.

(** *** The scenario *)

Definition main_filter : Instance :=
  {| instance_class := "WebhookEventFilterConfig";
     instance_fields := [("branch", VStr "main")] |}.

Definition dev_filter : Instance :=
  {| instance_class := "WebhookEventFilterConfig";
     instance_fields := [("branch", VStr "dev")] |}.

Definition push_to_main : BaseEvent :=
  {| instance_class := "WebhookEvent";
     instance_fields := [("repo_url", VStr "https://x/y");
                         ("branch", VStr "main")] |}.

(** Two sources watch the repository; trigger 11 is registered against
    both, trigger 12 against the first. *)
Definition store : Store :=
  {| event_sources :=
       [ {| event_source_id := 1%N; event_source_flavor := "webhook";
            event_source_configuration := [("repo_url", VStr "https://x/y")] |};
         {| event_source_id := 2%N; event_source_flavor := "webhook";
            event_source_configuration := [("repo_url", VStr "https://x/y")] |};
         {| event_source_id := 3%N; event_source_flavor := "webhook";
            event_source_configuration := [("repo_url", VStr "https://x/z")] |} ];
     triggers :=
       [ {| trigger_id := 11%N; trigger_event_source := 1%N;
            trigger_filter := main_filter |};
         {| trigger_id := 12%N; trigger_event_source := 1%N;
            trigger_filter := dev_filter |};
         {| trigger_id := 11%N; trigger_event_source := 2%N;
            trigger_filter := main_filter |} ] |}.

Definition empty_store : Store := {| event_sources := []; triggers := [] |}.

Definition valid_request : EventSourceRequest :=
  {| flavor := "webhook";
     configuration := [("repo_url", VStr "https://x/y")] |}.

(** The typed configuration built from [valid_request], with the default
    of the flag filled in. *)
Definition valid_configuration : Instance :=
  {| instance_class := "WebhookEventSourceConfig";
     instance_fields := [("repo_url", VStr "https://x/y");
                         ("active", VBool true)] |}.

(** The required field is missing. *)
Definition request_without_url : EventSourceRequest :=
  {| flavor := "webhook"; configuration := [] |}.

(** The field has the wrong type. *)
Definition request_with_number : EventSourceRequest :=
  {| flavor := "webhook"; configuration := [("repo_url", VInt 123)] |}.

(** The URL is there, the other field has the wrong type. *)
Definition request_with_bad_flag : EventSourceRequest :=
  {| flavor := "webhook";
     configuration := [("repo_url", VStr "https://x/y");
                       ("active", VStr "yes")] |}.

Definition request_unreachable : EventSourceRequest :=
  {| flavor := "webhook";
     configuration := [("repo_url", VStr "https://unreachable/")] |}.

(** What the constructor raises on [request_without_url]. *)
Definition missing_url_error : exn :=
  new_exn ValidationError
    [VList [error_entry "repo_url" "field required" "value_error.missing"]].

(** What the constructor raises on [request_with_bad_flag]. *)
Definition bad_flag_error : exn :=
  new_exn ValidationError
    [VList [error_entry "active" "value is not a valid boolean"
              "value_error.strictbool"]].

(** What the probing constructor raises on [request_unreachable]. *)
Definition unreachable_error : exn :=
  new_exn RuntimeError [VStr "host unreachable"].

(** The plugin with the probing configuration class. *)
Definition ProbingEventSourcePlugin : BaseEventSourcePlugin Store EventSource :=
  {| config_class_override := Some ProbingEventSourceConfig;
     _create_event_source := _create_event_source WebhookEventSourcePlugin;
     _get_all_relevant_event_sources :=
       _get_all_relevant_event_sources WebhookEventSourcePlugin;
     _get_matching_triggers := _get_matching_triggers WebhookEventSourcePlugin |}.

End Webhook.


(* ===================================================================== *)
(** ** Methods that call into libraries: a run and its record *)
(* ===================================================================== *)

(** The same reading of a method body as in [EventSources], for any kind
    of recorded call: a body runs on the state of the outside and leaves
    the list of what it called, oldest first; an exception ends it and what
    was done stays done. *)
Module Run.

Section Monad.

Variable C : Type.
Variable W : Type.

Record state : Type :=
  { outside : W;
    calls : list C }.

Definition M (A : Type) : Type := state -> result A * state.

Definition ret {A : Type} (a : A) : M A := fun s => (Ok a, s).

Definition raise {A : Type} (e : exn) : M A := fun s => (Raise e, s).

Definition bind {A B : Type} (m : M A) (k : A -> M B) : M B :=
  fun s =>
    match m s with
    | (Ok a, s') => k a s'
    | (Raise e, s') => (Raise e, s')
    end.

(** A call into a library or an inherited method: recorded, then run. *)
Definition invoke {A : Type} (c : C) (f : W -> result A * W) : M A :=
  fun s =>
    let (r, w) := f (outside s) in
    (r, {| outside := w; calls := calls s ++ [c] |}).

(** A call that only leaves a record, such as [logger.info]. *)
Definition emit (c : C) : M unit :=
  fun s => (Ok tt, {| outside := outside s; calls := calls s ++ [c] |}).

(** [try: body  except c: handler]. *)
Definition try_except {A : Type} (body : M A) (c : pyclass)
    (handler : exn -> M A) : M A :=
  fun s =>
    match body s with
    | (Ok a, s') => (Ok a, s')
    | (Raise e, s') => if isinstance e c then handler e s' else (Raise e, s')
    end.

Definition run {A : Type} (m : M A) (w : W) : result A * state :=
  m {| outside := w; calls := [] |}.

End Monad.

Arguments outside {C W} s.
Arguments calls {C W} s.
Arguments Build_state {C W} outside calls.
Arguments ret {C W A} a s.
Arguments raise {C W A} e s.
Arguments bind {C W A B} m k s.
Arguments invoke {C W A} c f s.
Arguments emit {C W} c s.
Arguments try_except {C W A} body c handler s.
Arguments run {C W A} m w.

End Run.

Declare Scope run_scope.
Delimit Scope run_scope with run.
Notation "x <- c ;; k" := (Run.bind c (fun x => k))
  (at level 61, c at next level, right associativity) : run_scope.
Notation "c ;; k" := (Run.bind c (fun _ => k))
  (at level 61, right associativity) : run_scope.

(* ===================================================================== *)
(** ** The vLLM deployment service *)
(* ===================================================================== *)

(** [src/zenml/integrations/vllm/services/vllm_deployment.py]. *)
Module VLLM.
Local Open Scope string_scope.

Definition KeyboardInterrupt : pyclass :=
  Subclass "KeyboardInterrupt" BaseException.

Definition SystemExit : pyclass := Subclass "SystemExit" BaseException.

Definition IndexError : pyclass := Subclass "IndexError" LookupError.

(** [d[k] = v]: the value is replaced where the key is, a new key goes
    last. *)
Fixpoint dict_set (k : string) (v : value) (d : Dict) : Dict :=
  match d with
  | [] => [(k, v)]
  | (k', v') :: r =>
      if String.eqb k k' then (k, v) :: r else (k', v') :: dict_set k v r
  end.

(** [d.update(other)]. *)
Definition dict_update (d other : Dict) : Dict :=
  fold_left (fun acc kv => dict_set (fst kv) (snd kv) acc) other d.

(** [xs[0]]. *)
Definition first_item {A : Type} (xs : list A) : result A :=
  match xs with
  | x :: _ => Ok x
  | [] => Raise (new_exn IndexError [VStr "list index out of range"])
  end.

(** An entry of [client.models.list().data]. *)
Record Model : Type := { id : string }.

(** What a run records. *)
Inductive call : Type :=
| Logger_info (msg : string)
| Logger_info_Args (args : Dict) (* the f-string [Args: ...] *)
| Call_is_running
| Call_import_vllm (* [import uvloop] and the imports from [vllm] *)
| Call_import_openai
| Call_make_arg_parser
| Call_parse_args
| Call_run_server (args : Dict)
| Call_OpenAI (api_key : string) (base_url : option string)
| Call_models_list
| Call_completions_create (model : string) (prompt : value).

Definition is_client_call (c : call) : bool :=
  match c with
  | Call_OpenAI _ _ | Call_models_list | Call_completions_create _ _ => true
  | _ => false
  end.

Section Service.

(** The state of the machine: the daemon, the command line, the server. *)
Variable W : Type.

(** The argument parser of vLLM, the OpenAI client and what a completion
    request returns. *)
Variables Parser Client Completion : Type.

(** The service: its configuration, the property [is_running] it inherits
    from [LocalDaemonService], and the libraries that [run] and [predict]
    import. *)
Record VLLMDeploymentService : Type :=
  { config : Instance;
    is_running : W -> result bool * W;
    import_vllm : W -> result unit * W;
    import_openai : W -> result unit * W;
    make_arg_parser : W -> result Parser * W;
    parse_args : Parser -> W -> result Dict * W;
    run_server : Dict -> W -> result unit * W;
    OpenAI : string -> option string -> W -> result Client * W;
    models_list : Client -> W -> result (list Model) * W;
    completions_create :
      Client -> string -> value -> W -> result Completion * W }.

(** [self.config.model_dump()]. *)
Definition model_dump (self : VLLMDeploymentService) : Dict :=
  instance_fields (config self).

Definition run (self : VLLMDeploymentService) : Run.M call W unit :=
  (Run.emit (Logger_info
     "Starting vLLM inference server service as blocking process... press CTRL+C once to stop it.") ;;
   Run.invoke Call_import_vllm (import_vllm self) ;;
   Run.try_except
     (parser <- Run.invoke Call_make_arg_parser (make_arg_parser self) ;;
      args <- Run.invoke Call_parse_args (parse_args self parser) ;;
      Run.emit (Logger_info_Args args) ;;
      Run.emit (Logger_info_Args (dict_update args (model_dump self))) ;;
      Run.invoke (Call_run_server (dict_update args (model_dump self)))
        (run_server self (dict_update args (model_dump self))))
     KeyboardInterrupt
     (fun _ => Run.emit (Logger_info "Stopping vLLM prediction service...")))%run.

Definition prediction_url (self : VLLMDeploymentService)
    : Run.M call W (option string) :=
  (running <- Run.invoke Call_is_running (is_running self) ;;
   if negb running then Run.ret None
   else Run.ret (Some "http://localhost:8000/v1"))%run.

Definition healthcheck_url (self : VLLMDeploymentService)
    : Run.M call W (option string) :=
  (running <- Run.invoke Call_is_running (is_running self) ;;
   if negb running then Run.ret None
   else Run.ret (Some "http://localhost:8000/health"))%run.

Definition predict (self : VLLMDeploymentService) (data : value)
    : Run.M call W Completion :=
  (running <- Run.invoke Call_is_running (is_running self) ;;
   if negb running then
     Run.raise (new_exn Exception
       [VStr "vLLM Inference service is not running. Please start the service before making predictions."])
   else
     url <- prediction_url self ;;
     match url with
     | Some _ =>
         Run.invoke Call_import_openai (import_openai self) ;;
         base_url <- prediction_url self ;;
         client <- Run.invoke (Call_OpenAI "EMPTY" base_url)
                     (OpenAI self "EMPTY" base_url) ;;
         models <- Run.invoke Call_models_list (models_list self client) ;;
         model <- (fun s => (first_item models, s)) ;;
         result <- Run.invoke (Call_completions_create (id model) data)
                     (completions_create self client (id model) data) ;;
         Run.ret result
     | None =>
         Run.raise (new_exn ValueError
                      [VStr "No endpoint known for prediction."])
     end)%run.

End Service.

Arguments config {W Parser Client Completion} self : rename.
Arguments is_running {W Parser Client Completion} self w : rename.
Arguments import_vllm {W Parser Client Completion} self w : rename.
Arguments import_openai {W Parser Client Completion} self w : rename.
Arguments make_arg_parser {W Parser Client Completion} self w : rename.
Arguments parse_args {W Parser Client Completion} self parser w : rename.
Arguments run_server {W Parser Client Completion} self args w : rename.
Arguments OpenAI {W Parser Client Completion} self api_key base_url w : rename.
Arguments models_list {W Parser Client Completion} self client w : rename.
Arguments completions_create {W Parser Client Completion} self client model
  prompt w : rename.
Arguments model_dump {W Parser Client Completion} self.
Arguments run {W Parser Client Completion} self s.
Arguments prediction_url {W Parser Client Completion} self s.
Arguments healthcheck_url {W Parser Client Completion} self s.
Arguments predict {W Parser Client Completion} self data s.

End VLLM.

(* ===================================================================== *)
(** ** The migration that adds the orchestrator run identifier *)
(* ===================================================================== *)

(** [src/zenml/zen_stores/migrations/versions/d02b3d3464cf_add_orchestrator_run_id_column.py].

    The schema of a database is the list of its tables, a table being a
    name and the list of its columns in order.  The operations of a batch
    are those the migration uses; the database refuses a batch on a table
    it has not, a column added under a name the table has, in whatever
    case of the letters (SQLite and MySQL compare the names of columns
    without regard to case), and the drop of a column the table has not
    under that very name. *)
Module Migration.
Local Open Scope string_scope.

Inductive sqltype : Type :=
| AutoString
| OtherType (name : string).

Record Column : Type :=
  { column_name : string;
    column_type : sqltype;
    nullable : bool }.

Record Table : Type :=
  { table_name : string;
    columns : list Column }.

Definition Schema : Type := list Table.

Definition has_column (name : string) (cs : list Column) : bool :=
  existsb (fun c => String.eqb (column_name c) name) cs.

Definition lower (c : ascii) : ascii :=
  if (65 <=? nat_of_ascii c)%nat && (nat_of_ascii c <=? 90)%nat
  then ascii_of_nat (nat_of_ascii c + 32)
  else c.

Fixpoint lower_name (s : string) : string :=
  match s with
  | EmptyString => EmptyString
  | String c r => String (lower c) (lower_name r)
  end.

(** The same name, case apart. *)
Definition same_name (a b : string) : bool :=
  String.eqb (lower_name a) (lower_name b).

Definition has_column_like (name : string) (cs : list Column) : bool :=
  existsb (fun c => same_name (column_name c) name) cs.

Fixpoint find_table (name : string) (db : Schema) : option Table :=
  match db with
  | [] => None
  | t :: r => if String.eqb (table_name t) name then Some t else find_table name r
  end.

(** The operations recorded inside [with op.batch_alter_table(...)]. *)
Inductive batch_op : Type :=
| add_column (c : Column)
| drop_column (name : string).

Definition apply_op (o : batch_op) (cs : list Column) : option (list Column) :=
  match o with
  | add_column c =>
      if has_column_like (column_name c) cs then None
      else Some (cs ++ [c])%list
  | drop_column name =>
      if has_column name cs
      then Some (filter (fun c => negb (String.eqb (column_name c) name)) cs)
      else None
  end.

Fixpoint apply_ops (ops : list batch_op) (cs : list Column)
    : option (list Column) :=
  match ops with
  | [] => Some cs
  | o :: r =>
      match apply_op o cs with
      | Some cs' => apply_ops r cs'
      | None => None
      end
  end.

(** [with op.batch_alter_table(table, schema=None) as batch_op: ops]: the
    operations are applied to the first table of that name, all or none. *)
Fixpoint batch_alter_table (table : string) (ops : list batch_op)
    (db : Schema) : option Schema :=
  match db with
  | [] => None
  | t :: r =>
      if String.eqb (table_name t) table then
        match apply_ops ops (columns t) with
        | Some cs => Some ({| table_name := table_name t; columns := cs |} :: r)
        | None => None
        end
      else
        match batch_alter_table table ops r with
        | Some r' => Some (t :: r')
        | None => None
        end
  end.

Definition revision : string := "d02b3d3464cf".
Definition down_revision : string := "ccd68b7825ae".

Definition orchestrator_run_id : Column :=
  {| column_name := "orchestrator_run_id";
     column_type := AutoString;
     nullable := true |}.

Definition upgrade (db : Schema) : option Schema :=
  batch_alter_table "pipelinerunschema" [add_column orchestrator_run_id] db.

Definition downgrade (db : Schema) : option Schema :=
  batch_alter_table "pipelinerunschema" [drop_column "orchestrator_run_id"] db.

Definition guid (name : string) (null : bool) : Column :=
  {| column_name := name; column_type := OtherType "GUID"; nullable := null |}.

Definition text (name : string) : Column :=
  {| column_name := name; column_type := AutoString; nullable := false |}.

Definition pipelines : Table :=
  {| table_name := "pipelineschema";
     columns := [guid "id" false; text "name"] |}.

(** The table of the pipeline runs, not yet migrated, and migrated. *)
Definition pipeline_runs : Table :=
  {| table_name := "pipelinerunschema";
     columns := [guid "id" false; text "name"; guid "pipeline_id" true] |}.

Definition pipeline_runs_migrated : Table :=
  {| table_name := "pipelinerunschema";
     columns := [guid "id" false; text "name"; guid "pipeline_id" true;
                 orchestrator_run_id] |}.

Definition before : Schema := [pipelines; pipeline_runs].

Definition migrated : Schema := [pipelines; pipeline_runs_migrated].

End Migration.

(* ===================================================================== *)
(** ** Machines to run the methods on *)
(* ===================================================================== *)

(** A plugin of the webhook flavor that keeps the property [config_class]
    of the base class. *)
Module Plain.

Definition PlainEventSourcePlugin
    : BaseEventSourcePlugin Webhook.Store Webhook.EventSource :=
  {| config_class_override := None;
     _create_event_source :=
       _create_event_source Webhook.WebhookEventSourcePlugin;
     _get_all_relevant_event_sources :=
       _get_all_relevant_event_sources Webhook.WebhookEventSourcePlugin;
     _get_matching_triggers :=
       _get_matching_triggers Webhook.WebhookEventSourcePlugin |}.

End Plain.

(** Plugins whose store is out of reach. *)
Module Outage.
Local Open Scope string_scope.

Definition unavailable : exn :=
  new_exn RuntimeError [VStr "store unavailable"].

(** The store fails at the first query. *)
Definition DownPlugin : BaseEventSourcePlugin Webhook.Store Webhook.EventSource :=
  {| config_class_override := Some Webhook.WebhookEventSourceConfig;
     _create_event_source := fun _ w => (Raise unavailable, w);
     _get_all_relevant_event_sources := fun _ w => (Raise unavailable, w);
     _get_matching_triggers := fun _ _ w => (Raise unavailable, w) |}.

(** The store answers the first query and fails at the second. *)
Definition HalfDownPlugin
    : BaseEventSourcePlugin Webhook.Store Webhook.EventSource :=
  {| config_class_override := Some Webhook.WebhookEventSourceConfig;
     _create_event_source := _create_event_source DownPlugin;
     _get_all_relevant_event_sources :=
       _get_all_relevant_event_sources Webhook.WebhookEventSourcePlugin;
     _get_matching_triggers := fun _ _ w => (Raise unavailable, w) |}.

End Outage.

(** A machine for the vLLM service: its state is the list of the answers
    that the daemon will give to [is_running], in turn; the client is named
    by its base URL and a completion echoes the request. *)
Module LocalMachine.
Local Open Scope string_scope.

Definition answer (w : list bool) : result bool * list bool :=
  match w with
  | b :: r => (Ok b, r)
  | [] => (Ok false, [])
  end.

Definition echo (model : string) (prompt : value) : value :=
  VDict [("model", VStr model); ("prompt", prompt)].

Definition service (cfg : Instance) (argv : Dict) (served : result unit)
    (models : list VLLM.Model)
    : VLLM.VLLMDeploymentService (list bool) unit (option string) value :=
  {| VLLM.config := cfg;
     VLLM.is_running := answer;
     VLLM.import_vllm := fun w => (Ok tt, w);
     VLLM.import_openai := fun w => (Ok tt, w);
     VLLM.make_arg_parser := fun w => (Ok tt, w);
     VLLM.parse_args := fun _ w => (Ok argv, w);
     VLLM.run_server := fun _ w => (served, w);
     VLLM.OpenAI := fun _ base_url w => (Ok base_url, w);
     VLLM.models_list := fun _ w => (Ok models, w);
     VLLM.completions_create := fun _ model prompt w =>
       (Ok (echo model prompt), w) |}.

(** A configuration with neither model nor tokenizer set.  Of the fields
    that the class inherits from [LocalDaemonServiceConfig], declared
    outside the file, the dump shows the name alone. *)
Definition default_config : Instance :=
  {| instance_class := "VLLMServiceConfig";
     instance_fields := [("name", VStr "vllm"); ("model", VNone);
                         ("tokenizer", VNone)] |}.

(** What the parser of vLLM returns when the command line is empty, as far
    as the two arguments go. *)
Definition argv : Dict :=
  [("model", VStr "facebook/opt-125m"); ("tokenizer", VNone);
   ("port", VInt 8000)].

Definition ctrl_c : exn := new_exn VLLM.KeyboardInterrupt [].

Definition opt : VLLM.Model := {| VLLM.id := "facebook/opt-125m" |}.

(** A service interrupted while it serves. *)
Definition interrupted :=
  service default_config argv (Raise ctrl_c) [opt].

(** A service whose imports fail. *)
Definition interrupted_early :=
  {| VLLM.config := default_config;
     VLLM.is_running := answer;
     VLLM.import_vllm := fun w : list bool => (@Raise unit ctrl_c, w);
     VLLM.import_openai := VLLM.import_openai interrupted;
     VLLM.make_arg_parser := VLLM.make_arg_parser interrupted;
     VLLM.parse_args := VLLM.parse_args interrupted;
     VLLM.run_server := VLLM.run_server interrupted;
     VLLM.OpenAI := VLLM.OpenAI interrupted;
     VLLM.models_list := VLLM.models_list interrupted;
     VLLM.completions_create := VLLM.completions_create interrupted |}.

(** A service that serves one model. *)
Definition serving := service default_config argv (Ok tt) [opt].

(** A service that lists no model. *)
Definition without_model := service default_config argv (Ok tt) [].

End LocalMachine.

(* ===================================================================== *)
(** ** Vocabulary of the statements *)
(* ===================================================================== *)

(** The record [process_event] hands to the logger. *)
Definition log_message : string :=
  "An event came in and will be forwarded to the following subscriber %s".

(** The error [_fail_if_event_source_configuration_invalid] raises while it
    handles [cause]. *)
Definition invalid_configuration (cause : exn) : exn :=
  new_exn_handling cause ValueError [VStr "Invalid Configuration."].

(** The specification's [sourceConfigSchema()]: the schema of the flavor's
    [EventSourceConfig] type. *)
Definition spec_source_config_schema (cls : BaseEventSourcePluginFlavor)
    : result value :=
  Json.loads (schema_json (EVENT_SOURCE_CONFIG_CLASS cls)).

(** The specification's [filterConfigSchema()]: the schema of the flavor's
    [EventFilterConfig] type. *)
Definition spec_filter_config_schema (cls : BaseEventSourcePluginFlavor)
    : result value :=
  Json.loads (schema_json (EVENT_FILTER_CONFIG_CLASS cls)).

(** A value names a field: the name occurs in one of its strings. *)
Fixpoint occurs (needle hay : string) : bool :=
  match hay with
  | EmptyString => match needle with EmptyString => true | _ => false end
  | String _ r => String.prefix needle hay || occurs needle r
  end.

Fixpoint mentions (name : string) (v : value) : bool :=
  match v with
  | VStr s => occurs name s
  | VList l => existsb (mentions name) l
  | VDict d => existsb (fun kv => mentions name (snd kv)) d
  | _ => false
  end.

(** The error tells that the field failed: one of its arguments names it. *)
Definition indicates (e : exn) (name : string) : bool :=
  existsb (mentions name) (exn_args e).

(* ===================================================================== *)
(** ** Exception classes *)
(* ===================================================================== *)

Lemma pyclass_eqb_refl (c : pyclass) : pyclass_eqb c c = true.
Proof.
  induction c as [| | | | | | | n b IH]; simpl; auto.
  rewrite String.eqb_refl. exact IH.
Qed.

Lemma pyclass_eqb_eq (c d : pyclass) : pyclass_eqb c d = true -> c = d.
Proof.
  revert d.
  induction c as [| | | | | | | n b IH]; intros [] H; simpl in H;
    try discriminate; auto.
  apply andb_true_iff in H as [Hn Hb].
  apply String.eqb_eq in Hn. apply IH in Hb. now subst.
Qed.

Lemma issubclass_In (c d : pyclass) : issubclass c d = true <-> In d (mro c).
Proof.
  unfold issubclass. rewrite existsb_exists. split.
  - intros (x & Hx & E). apply pyclass_eqb_eq in E. now subst.
  - intros H. exists d. split; [exact H | apply pyclass_eqb_refl].
Qed.

Lemma mro_head (c : pyclass) : In c (mro c).
Proof. destruct c; simpl; auto. Qed.

(** The classes above a class of the chain are in the chain. *)
Lemma mro_incl (c d : pyclass) : In d (mro c) -> incl (mro d) (mro c).
Proof.
  induction c as [| | | | | | | n b IH]; simpl; intros H;
    repeat (destruct H as [<- | H]; [unfold incl; simpl; tauto |]);
    try contradiction.
  intros x Hx. right. now apply (IH H).
Qed.

Lemma issubclass_trans (c d e : pyclass) :
  issubclass c d = true -> issubclass d e = true -> issubclass c e = true.
Proof.
  rewrite !issubclass_In. intros Hd He. exact (mro_incl c d Hd e He).
Qed.

(** A validation error is caught by [except ValueError]. *)
Lemma ValidationError_isinstance_ValueError (e : exn) :
  isinstance e ValidationError = true -> isinstance e ValueError = true.
Proof.
  unfold isinstance. intros H.
  apply (issubclass_trans _ _ _ H). reflexivity.
Qed.

(* ===================================================================== *)
(** ** Runs of the plugin methods *)
(* ===================================================================== *)

Section Runs.

Context {W EventSourceResponse : Type}.
Variable EventSourceConfig : ModelClass.

Implicit Types (self : BaseEventSourcePlugin W EventSourceResponse).
Implicit Types (event_source : EventSourceRequest) (event : BaseEvent).
Implicit Types (w : W) (e : exn).

(** The validation step, by the outcome of the construction. *)
Lemma validation_passes self event_source inst :
  init (config_class EventSourceConfig self) (configuration event_source)
    = Ok inst ->
  _fail_if_event_source_configuration_invalid EventSourceConfig self
    event_source = Ok tt.
Proof.
  intros H. unfold _fail_if_event_source_configuration_invalid.
  now rewrite H.
Qed.

Lemma validation_raises self event_source e :
  init (config_class EventSourceConfig self) (configuration event_source)
    = Raise e ->
  _fail_if_event_source_configuration_invalid EventSourceConfig self
    event_source
  = Raise (if isinstance e ValueError then invalid_configuration e else e).
Proof.
  intros H. unfold _fail_if_event_source_configuration_invalid.
  rewrite H. simpl. now destruct (isinstance e ValueError).
Qed.

(** [create_event_source], by the outcome of the validation step. *)
Lemma create_event_source_stops self event_source e w :
  _fail_if_event_source_configuration_invalid EventSourceConfig self
    event_source = Raise e ->
  run (create_event_source EventSourceConfig self event_source) w
  = (Raise e, {| world := w; trace := [] |}).
Proof.
  intros H. unfold run, create_event_source, mbind, lift. now rewrite H.
Qed.

Lemma create_event_source_goes_on self event_source w :
  _fail_if_event_source_configuration_invalid EventSourceConfig self
    event_source = Ok tt ->
  run (create_event_source EventSourceConfig self event_source) w
  = (fst (_create_event_source self event_source w),
     {| world := snd (_create_event_source self event_source w);
        trace := [Call_create_event_source event_source] |}).
Proof.
  intros H. unfold run, create_event_source, mbind, lift, invoke.
  rewrite H. simpl. now destruct (_create_event_source self event_source w).
Qed.

(** [process_event], by what the first extension point returns. *)
Lemma process_event_nothing_relevant self event w w1 :
  _get_all_relevant_event_sources self event w = (Ok [], w1) ->
  run (process_event self event) w
  = (Ok tt, {| world := w1;
               trace := [Call_get_all_relevant_event_sources event] |}).
Proof.
  intros H. unfold run, process_event, mbind, invoke, ret. simpl.
  now rewrite H.
Qed.

Lemma process_event_relevant self event w ids w1 :
  _get_all_relevant_event_sources self event w = (Ok ids, w1) ->
  ids <> [] ->
  run (process_event self event) w
  = match _get_matching_triggers self ids event w1 with
    | (Ok trigger_ids, w2) =>
        (Ok tt,
         {| world := w2;
            trace := [Call_get_all_relevant_event_sources event;
                      Call_get_matching_triggers ids event;
                      Logger_info log_message trigger_ids] |})
    | (Raise e, w2) =>
        (Raise e,
         {| world := w2;
            trace := [Call_get_all_relevant_event_sources event;
                      Call_get_matching_triggers ids event] |})
    end.
Proof.
  intros H Hne. unfold run, process_event, mbind, invoke, logger_info. simpl.
  rewrite H. destruct ids as [| i ids]; [congruence |]. simpl.
  now destruct (_get_matching_triggers self (i :: ids) event w1) as [[t | e] w2].
Qed.

End Runs.

(* ===================================================================== *)
(** ** Creation of an event source *)
(* ===================================================================== *)

Section Creation.

Context {W EventSourceResponse : Type}.
Variable EventSourceConfig : ModelClass.

Implicit Types (self : BaseEventSourcePlugin W EventSourceResponse).
Implicit Types (event_source : EventSourceRequest).
Implicit Types (w : W) (e : exn).

(** C2, as the code has it.  A creation request whose configuration payload
    fails validation against the class that the property [config_class] of
    the plugin returns (the constructor raises a validation error) makes
    [create_event_source] raise the invalid-configuration error, a
    [ValueError], and the run ends with the store as it was and with no
    call recorded: [_create_event_source] is not invoked, the validation
    having ended the method before it. *)
Theorem create_event_source_invalid_configuration self event_source e w :
  init (config_class EventSourceConfig self) (configuration event_source)
    = Raise e ->
  isinstance e ValidationError = true ->
  run (create_event_source EventSourceConfig self event_source) w
  = (Raise (invalid_configuration e), {| world := w; trace := [] |}).
Proof.
  intros Hinit Hval.
  apply create_event_source_stops.
  rewrite (validation_raises _ _ _ _ Hinit).
  now rewrite (ValidationError_isinstance_ValueError e Hval).
Qed.

(** C9.  When the construction of the typed configuration raises [e], the
    method raises the invalid-configuration error if [e] is an instance of
    [ValueError] (of the class or of a subclass), and [e] itself otherwise;
    in both cases [_create_event_source] is not invoked and the store is
    untouched. *)
Theorem create_event_source_converts_ValueError_only self event_source e w :
  init (config_class EventSourceConfig self) (configuration event_source)
    = Raise e ->
  run (create_event_source EventSourceConfig self event_source) w
  = (Raise (if isinstance e ValueError then invalid_configuration e else e),
     {| world := w; trace := [] |}).
Proof.
  intros Hinit.
  apply create_event_source_stops.
  exact (validation_raises _ _ _ _ Hinit).
Qed.

(** C10.  When validation succeeds, [_create_event_source] is invoked once,
    on the request as it was received; the instance built by the validation
    appears nowhere in the outcome, and the method ends as
    [_create_event_source] does: same response or same exception, same
    store. *)
Theorem create_event_source_delegates self event_source inst w :
  init (config_class EventSourceConfig self) (configuration event_source)
    = Ok inst ->
  run (create_event_source EventSourceConfig self event_source) w
  = (fst (_create_event_source self event_source w),
     {| world := snd (_create_event_source self event_source w);
        trace := [Call_create_event_source event_source] |}).
Proof.
  intros Hinit.
  apply create_event_source_goes_on.
  exact (validation_passes _ _ _ _ Hinit).
Qed.

(** C7, as the code has it.  When the configuration fails validation, the
    error raised is a [ValueError] whose only argument is the fixed text
    [Invalid Configuration.], whatever the fields that failed; the
    validation error is kept as the context of the raised one. *)
Theorem invalid_configuration_error_is_fixed self event_source e w :
  init (config_class EventSourceConfig self) (configuration event_source)
    = Raise e ->
  isinstance e ValueError = true ->
  exists x,
    raised (fst (run (create_event_source EventSourceConfig self event_source) w))
      = Some x
    /\ exn_type x = ValueError
    /\ exn_args x = [VStr "Invalid Configuration."]
    /\ exn_context x = Some e.
Proof.
  intros Hinit Hval.
  exists (invalid_configuration e).
  rewrite (create_event_source_stops EventSourceConfig self event_source
             (invalid_configuration e) w).
  - repeat split.
  - rewrite (validation_raises _ _ _ _ Hinit). now rewrite Hval.
Qed.

End Creation.

(* ===================================================================== *)
(** ** Processing of an event *)
(* ===================================================================== *)

Section Processing.

Context {W EventSourceResponse : Type}.

Implicit Types (self : BaseEventSourcePlugin W EventSourceResponse).
Implicit Types (event : BaseEvent) (w : W).

(** C3, on the code.  When there are relevant event sources and the
    matching triggers are found, all that [process_event] does with the
    trigger identifiers is to hand them to the logger; it returns [None].
    Nothing is passed to an Event Hub, and the event goes nowhere beyond the
    two extension points. *)
Theorem process_event_only_logs self event w ids w1 trigger_ids w2 :
  _get_all_relevant_event_sources self event w = (Ok ids, w1) ->
  ids <> [] ->
  _get_matching_triggers self ids event w1 = (Ok trigger_ids, w2) ->
  run (process_event self event) w
  = (Ok tt,
     {| world := w2;
        trace := [Call_get_all_relevant_event_sources event;
                  Call_get_matching_triggers ids event;
                  Logger_info log_message trigger_ids] |}).
Proof.
  intros Hrel Hne Hmatch.
  rewrite (process_event_relevant self event w ids w1 Hrel Hne).
  now rewrite Hmatch.
Qed.

(** C4.  When [_get_all_relevant_event_sources] returns the empty list,
    [process_event] returns [None] without an error and does nothing more:
    the only call of the run is that one, so [_get_matching_triggers] is
    not called and no trigger identifier is handed over to anything. *)
Theorem process_event_without_relevant_sources self event w w1 :
  _get_all_relevant_event_sources self event w = (Ok [], w1) ->
  run (process_event self event) w
  = (Ok tt, {| world := w1;
               trace := [Call_get_all_relevant_event_sources event] |})
  /\ existsb is_Call_get_matching_triggers
       (trace (snd (run (process_event self event) w))) = false.
Proof.
  intros Hrel.
  rewrite (process_event_nothing_relevant self event w w1 Hrel).
  split; reflexivity.
Qed.

End Processing.

(* ===================================================================== *)
(** ** Flavors *)
(* ===================================================================== *)

(** Each derivation reads the class attribute the other one is named
    after. *)
Lemma schema_derivations_read_other_class (cls : BaseEventSourcePluginFlavor) :
  get_event_source_config_schema cls = spec_filter_config_schema cls
  /\ get_event_filter_config_schema cls = spec_source_config_schema cls.
Proof. split; reflexivity. Qed.

(** C1, on the code.  For the webhook flavor,
    [get_event_source_config_schema] returns the schema of the filter
    configuration class and [get_event_filter_config_schema] the schema of
    the source configuration class; neither returns the schema of the class
    it is named after. *)
Theorem webhook_schema_derivations_swapped :
  get_event_source_config_schema Webhook.WebhookEventSourceFlavor
    = Ok (VDict (model_schema "WebhookEventFilterConfig"
                   "Filter on the branch of a push."
                   [Webhook.required_str "branch" "Branch"]))
  /\ get_event_filter_config_schema Webhook.WebhookEventSourceFlavor
    = Ok (VDict (model_schema "WebhookEventSourceConfig"
                   "Configuration of a webhook source."
                   Webhook.WebhookEventSourceConfig_fields))
  /\ get_event_source_config_schema Webhook.WebhookEventSourceFlavor
     <> spec_source_config_schema Webhook.WebhookEventSourceFlavor
  /\ get_event_filter_config_schema Webhook.WebhookEventSourceFlavor
     <> spec_filter_config_schema Webhook.WebhookEventSourceFlavor.
Proof.
  repeat split; try (vm_compute; reflexivity);
    vm_compute; intros H; discriminate H.
Qed.

(** The bundling alone: for a flavor whose two schema derivations return
    JSON objects, [get_plugin_flavor_response_model] returns a response,
    and the fields of the response are exactly four: the flavor name, the
    plugin type, which is [EVENT_SOURCE], and what the two derivations
    returned, each under the name of its derivation. *)
Theorem flavor_response_fields (dict_coerce : value -> result Dict)
    (cls : BaseEventSourcePluginFlavor) (source filter : Dict) :
  get_event_source_config_schema cls = Ok (VDict source) ->
  get_event_filter_config_schema cls = Ok (VDict filter) ->
  exists r,
    get_plugin_flavor_response_model dict_coerce cls = Ok r
    /\ EventFlavorResponse_dict r
       = [("flavor_name", FStr (FLAVOR cls));
          ("plugin_type", FPluginType EVENT_SOURCE);
          ("source_config_schema", FDict source);
          ("filter_config_schema", FDict filter)].
Proof.
  intros Hs Hf.
  eexists. unfold get_plugin_flavor_response_model.
  rewrite Hs, Hf. simpl. split; reflexivity.
Qed.

(** C6, on the code.  The response of the webhook flavor has the flavor
    name and the plugin type [EVENT_SOURCE], but its field
    [source_config_schema] holds the schema of the filter configuration
    class and its field [filter_config_schema] the schema of the source
    configuration class: neither holds the schema it is named after. *)
Theorem webhook_flavor_response_swapped (dict_coerce : value -> result Dict) :
  exists r,
    get_plugin_flavor_response_model dict_coerce
      Webhook.WebhookEventSourceFlavor = Ok r
    /\ flavor_name r = "webhook"%string
    /\ plugin_type r = EVENT_SOURCE
    /\ source_config_schema r
       = model_schema "WebhookEventFilterConfig"
           "Filter on the branch of a push."
           [Webhook.required_str "branch" "Branch"]
    /\ filter_config_schema r
       = model_schema "WebhookEventSourceConfig"
           "Configuration of a webhook source."
           Webhook.WebhookEventSourceConfig_fields
    /\ Ok (VDict (source_config_schema r))
       <> spec_source_config_schema Webhook.WebhookEventSourceFlavor
    /\ Ok (VDict (filter_config_schema r))
       <> spec_filter_config_schema Webhook.WebhookEventSourceFlavor.
Proof.
  eexists. split; [vm_compute; reflexivity |].
  repeat split; try (vm_compute; reflexivity);
    vm_compute; intros H; discriminate H.
Qed.

(* ===================================================================== *)
(** ** The webhook flavor *)
(* ===================================================================== *)

Section WebhookFacts.

Import Webhook.

Lemma mem_In (x : UUID) (xs : list UUID) : mem x xs = true <-> In x xs.
Proof.
  unfold mem. rewrite existsb_exists. split.
  - intros (y & Hy & E). apply N.eqb_eq in E. now subst.
  - intros H. exists x. split; [exact H | apply N.eqb_refl].
Qed.

Lemma filter_accepts_spec (t : Trigger) (event : BaseEvent) :
  filter_accepts t event = true
  <-> event_matches_filter (trigger_filter t) event = Ok true.
Proof.
  unfold filter_accepts, event_matches_filter. split.
  - intros ->. reflexivity.
  - intros H. now injection H.
Qed.

(** What [matching_triggers] returns: no trigger twice, and the triggers
    with a registration against one of the sources whose filter matches. *)
Lemma matching_triggers_NoDup (ids : list UUID) (event : BaseEvent)
    (w : Store) : NoDup (matching_triggers ids event w).
Proof. apply NoDup_nodup. Qed.

Lemma matching_triggers_In (ids : list UUID) (event : BaseEvent) (w : Store)
    (t : UUID) :
  In t (matching_triggers ids event w)
  <-> exists row,
        In row (triggers w)
        /\ trigger_id row = t
        /\ In (trigger_event_source row) ids
        /\ event_matches_filter (trigger_filter row) event = Ok true.
Proof.
  unfold matching_triggers. rewrite nodup_In, in_map_iff. split.
  - intros (row & Hid & Hrow). apply filter_In in Hrow as [Hrow Hcond].
    apply andb_true_iff in Hcond as [Hmem Hacc].
    exists row. repeat split; auto.
    + now apply mem_In.
    + now apply filter_accepts_spec.
  - intros (row & Hrow & Hid & Hsrc & Hmatch).
    exists row. split; [exact Hid |].
    apply filter_In. split; [exact Hrow |].
    apply andb_true_iff. split.
    + now apply mem_In.
    + now apply filter_accepts_spec.
Qed.

(** C5.  For the flavor that follows the specification, whatever the store
    and the event: when there are relevant event sources, the trigger
    identifiers that [process_event] obtains and hands over hold no
    identifier twice, and they are the identifiers of the triggers that
    have a registration against a relevant event source with a filter
    matching the event, also when a trigger is registered against several
    of them. *)
Theorem webhook_trigger_ids_distinct (w : Store) (event : BaseEvent) :
  relevant_event_sources event w <> [] ->
  exists trigger_ids,
    run (process_event WebhookEventSourcePlugin event) w
    = (Ok tt,
       {| world := w;
          trace := [Call_get_all_relevant_event_sources event;
                    Call_get_matching_triggers
                      (relevant_event_sources event w) event;
                    Logger_info log_message trigger_ids] |})
    /\ NoDup trigger_ids
    /\ forall t,
         In t trigger_ids
         <-> exists row,
               In row (triggers w)
               /\ trigger_id row = t
               /\ In (trigger_event_source row) (relevant_event_sources event w)
               /\ event_matches_filter (trigger_filter row) event = Ok true.
Proof.
  intros Hne.
  exists (matching_triggers (relevant_event_sources event w) event w).
  split; [| split].
  - now apply (process_event_relevant WebhookEventSourcePlugin event w
                 (relevant_event_sources event w) w).
  - apply matching_triggers_NoDup.
  - intros t. apply matching_triggers_In.
Qed.

End WebhookFacts.

(* ===================================================================== *)
(** ** The theorems at work on the webhook flavor *)
(* ===================================================================== *)

Section Runs_of_the_webhook_flavor.

Import Webhook.

(** The validation error of pydantic names the field that failed. *)
Example validation_error_names_field :
  indicates missing_url_error "repo_url" = true
  /\ indicates bad_flag_error "active" = true.
Proof. split; reflexivity. Qed.

(** A payload without the required URL. *)
Lemma create_event_source_invalid_configuration_witness :
  init (config_class EventSourceConfig WebhookEventSourcePlugin)
    (configuration request_without_url) = Raise missing_url_error
  /\ isinstance missing_url_error ValidationError = true
  /\ run (create_event_source EventSourceConfig WebhookEventSourcePlugin
            request_without_url) empty_store
     = (Raise (invalid_configuration missing_url_error),
        {| world := empty_store; trace := [] |}).
Proof.
  split; [reflexivity |]. split; [reflexivity |].
  apply (create_event_source_invalid_configuration EventSourceConfig
           WebhookEventSourcePlugin request_without_url missing_url_error
           empty_store); reflexivity.
Defined.

(** A constructor that raises a [RuntimeError]: it reaches the caller. *)
Lemma create_event_source_converts_ValueError_only_witness :
  init (config_class EventSourceConfig ProbingEventSourcePlugin)
    (configuration request_unreachable) = Raise unreachable_error
  /\ run (create_event_source EventSourceConfig ProbingEventSourcePlugin
            request_unreachable) store
     = (Raise unreachable_error, {| world := store; trace := [] |}).
Proof.
  split; [reflexivity |].
  apply (create_event_source_converts_ValueError_only EventSourceConfig
           ProbingEventSourcePlugin request_unreachable unreachable_error
           store); reflexivity.
Defined.

(** A valid payload: the request goes to the store as it came, without the
    default that the validation filled in. *)
Lemma create_event_source_delegates_witness :
  init (config_class EventSourceConfig WebhookEventSourcePlugin)
    (configuration valid_request)
  = Ok valid_configuration
  /\ run (create_event_source EventSourceConfig WebhookEventSourcePlugin
            valid_request) empty_store
     = (Ok {| event_source_id := 1%N;
              event_source_flavor := "webhook";
              event_source_configuration := [("repo_url", VStr "https://x/y")] |},
        {| world :=
             {| event_sources :=
                  [ {| event_source_id := 1%N;
                       event_source_flavor := "webhook";
                       event_source_configuration :=
                         [("repo_url", VStr "https://x/y")] |} ];
                triggers := [] |};
           trace := [Call_create_event_source valid_request] |}).
Proof.
  split; [reflexivity |].
  apply (create_event_source_delegates EventSourceConfig
           WebhookEventSourcePlugin valid_request valid_configuration
           empty_store); reflexivity.
Defined.

(** A payload whose flag has the wrong type. *)
Lemma invalid_configuration_error_is_fixed_witness :
  init (config_class EventSourceConfig WebhookEventSourcePlugin)
    (configuration request_with_bad_flag) = Raise bad_flag_error
  /\ isinstance bad_flag_error ValueError = true
  /\ exists x,
       raised (fst (run (create_event_source EventSourceConfig
                           WebhookEventSourcePlugin request_with_bad_flag)
                      empty_store)) = Some x
       /\ exn_type x = ValueError
       /\ exn_args x = [VStr "Invalid Configuration."]
       /\ exn_context x = Some bad_flag_error.
Proof.
  split; [reflexivity |]. split; [reflexivity |].
  apply (invalid_configuration_error_is_fixed EventSourceConfig
           WebhookEventSourcePlugin request_with_bad_flag bad_flag_error
           empty_store); reflexivity.
Defined.

(** C2, as stated, fails: the payload without the URL fails validation
    against the source configuration class that the webhook flavor
    declares, and the plugin that keeps the [config_class] of the base
    class persists it all the same, for the method validates against
    [config_class] and never reads the class of the flavor. *)
Lemma create_event_source_ignores_flavor_class :
  ~ (forall event_source e,
       init (EVENT_SOURCE_CONFIG_CLASS WebhookEventSourceFlavor)
         (configuration event_source) = Raise e ->
       isinstance e ValidationError = true ->
       existsb is_Call_create_event_source
         (trace (snd (run (create_event_source EventSourceConfig
                             Plain.PlainEventSourcePlugin event_source)
                        empty_store))) = false).
Proof.
  intros H.
  specialize (H request_without_url missing_url_error eq_refl eq_refl).
  discriminate H.
Qed.

(** C7, as stated, fails: the payload without the URL fails on the field
    [repo_url], and the error that [create_event_source] raises does not
    name it. *)
Lemma invalid_configuration_names_no_field :
  ~ (forall event_source x f,
       raised (fst (run (create_event_source EventSourceConfig
                           WebhookEventSourcePlugin event_source)
                      empty_store)) = Some x ->
       In f (failed_fields WebhookEventSourceConfig_fields
               (configuration event_source)) ->
       indicates x f = true).
Proof.
  intros H.
  specialize (H request_without_url _ "repo_url" eq_refl (or_introl eq_refl)).
  discriminate H.
Qed.

(** A push to the watched repository: the trigger identifier ends in the
    log. *)
Lemma process_event_only_logs_witness :
  _get_all_relevant_event_sources WebhookEventSourcePlugin push_to_main store
    = (Ok [1%N; 2%N], store)
  /\ [1%N; 2%N] <> []
  /\ _get_matching_triggers WebhookEventSourcePlugin [1%N; 2%N] push_to_main
       store = (Ok [11%N], store)
  /\ run (process_event WebhookEventSourcePlugin push_to_main) store
     = (Ok tt,
        {| world := store;
           trace := [Call_get_all_relevant_event_sources push_to_main;
                     Call_get_matching_triggers [1%N; 2%N] push_to_main;
                     Logger_info log_message [11%N]] |}).
Proof.
  split; [reflexivity |]. split; [discriminate |]. split; [reflexivity |].
  apply (process_event_only_logs WebhookEventSourcePlugin push_to_main store
           [1%N; 2%N] store [11%N] store);
    [reflexivity | discriminate | reflexivity].
Defined.

(** A push while no event source is registered. *)
Lemma process_event_without_relevant_sources_witness :
  _get_all_relevant_event_sources WebhookEventSourcePlugin push_to_main
    empty_store = (Ok [], empty_store)
  /\ run (process_event WebhookEventSourcePlugin push_to_main) empty_store
     = (Ok tt, {| world := empty_store;
                  trace := [Call_get_all_relevant_event_sources push_to_main] |})
  /\ existsb is_Call_get_matching_triggers
       (trace (snd (run (process_event WebhookEventSourcePlugin push_to_main)
                      empty_store))) = false.
Proof.
  split; [reflexivity |].
  apply (process_event_without_relevant_sources WebhookEventSourcePlugin
           push_to_main empty_store empty_store); reflexivity.
Defined.

(** Trigger 11 is reachable through the sources 1 and 2. *)
Lemma webhook_trigger_ids_distinct_witness :
  relevant_event_sources push_to_main store <> []
  /\ exists trigger_ids,
       run (process_event WebhookEventSourcePlugin push_to_main) store
       = (Ok tt,
          {| world := store;
             trace := [Call_get_all_relevant_event_sources push_to_main;
                       Call_get_matching_triggers
                         (relevant_event_sources push_to_main store)
                         push_to_main;
                       Logger_info log_message trigger_ids] |})
       /\ NoDup trigger_ids
       /\ forall t,
            In t trigger_ids
            <-> exists row,
                  In row (triggers store)
                  /\ trigger_id row = t
                  /\ In (trigger_event_source row)
                       (relevant_event_sources push_to_main store)
                  /\ event_matches_filter (trigger_filter row) push_to_main
                     = Ok true.
Proof.
  split; [discriminate |].
  apply (webhook_trigger_ids_distinct store push_to_main); discriminate.
Defined.

(** The scenario of the specification: of the two filters, the one on
    [main] matches, and the run yields that trigger alone, once. *)
Example webhook_scenario :
  run (process_event WebhookEventSourcePlugin push_to_main) store
  = (Ok tt,
     {| world := store;
        trace := [Call_get_all_relevant_event_sources push_to_main;
                  Call_get_matching_triggers [1%N; 2%N] push_to_main;
                  Logger_info log_message [11%N]] |}).
Proof. reflexivity. Qed.

(** The response of the webhook flavor. *)
Lemma flavor_response_fields_witness :
  get_event_source_config_schema WebhookEventSourceFlavor
    = Ok (VDict (model_schema "WebhookEventFilterConfig"
                   "Filter on the branch of a push."
                   [required_str "branch" "Branch"]))
  /\ get_event_filter_config_schema WebhookEventSourceFlavor
     = Ok (VDict (model_schema "WebhookEventSourceConfig"
                    "Configuration of a webhook source."
                    WebhookEventSourceConfig_fields))
  /\ exists r,
       get_plugin_flavor_response_model dict_error WebhookEventSourceFlavor
         = Ok r
       /\ EventFlavorResponse_dict r
          = [("flavor_name", FStr (FLAVOR WebhookEventSourceFlavor));
             ("plugin_type", FPluginType EVENT_SOURCE);
             ("source_config_schema",
              FDict (model_schema "WebhookEventFilterConfig"
                       "Filter on the branch of a push."
                       [required_str "branch" "Branch"]));
             ("filter_config_schema",
              FDict (model_schema "WebhookEventSourceConfig"
                       "Configuration of a webhook source."
                       WebhookEventSourceConfig_fields))].
Proof.
  split; [vm_compute; reflexivity |]. split; [vm_compute; reflexivity |].
  apply (flavor_response_fields dict_error WebhookEventSourceFlavor);
    vm_compute; reflexivity.
Defined.

End Runs_of_the_webhook_flavor.

(* ===================================================================== *)
(** ** More on the plugin methods *)
(* ===================================================================== *)

Section Plugin_runs.

Context {W EventSourceResponse : Type}.
Variable EventSourceConfig : ModelClass.

Implicit Types (self : BaseEventSourcePlugin W EventSourceResponse).
Implicit Types (event_source : EventSourceRequest) (event : BaseEvent).
Implicit Types (w : W) (e : exn).

Lemma process_event_relevant_raises self event w e w1 :
  _get_all_relevant_event_sources self event w = (Raise e, w1) ->
  run (process_event self event) w
  = (Raise e, {| world := w1;
                 trace := [Call_get_all_relevant_event_sources event] |}).
Proof.
  intros H. unfold run, process_event, mbind, invoke. simpl. now rewrite H.
Qed.

(** X1.  An exception of [_get_all_relevant_event_sources] leaves
    [process_event] as it is: the method does not handle it,
    [_get_matching_triggers] is not called and nothing is logged. *)
Theorem process_event_relevant_sources_fail self event w e w1 :
  _get_all_relevant_event_sources self event w = (Raise e, w1) ->
  run (process_event self event) w
  = (Raise e, {| world := w1;
                 trace := [Call_get_all_relevant_event_sources event] |}).
Proof. exact (process_event_relevant_raises self event w e w1). Qed.

(** X2.  An exception of [_get_matching_triggers] leaves [process_event]
    as it is, after the two calls, and nothing is logged. *)
Theorem process_event_matching_triggers_fail self event w ids w1 e w2 :
  _get_all_relevant_event_sources self event w = (Ok ids, w1) ->
  ids <> [] ->
  _get_matching_triggers self ids event w1 = (Raise e, w2) ->
  run (process_event self event) w
  = (Raise e, {| world := w2;
                 trace := [Call_get_all_relevant_event_sources event;
                           Call_get_matching_triggers ids event] |}).
Proof.
  intros Hrel Hne Hmatch.
  rewrite (process_event_relevant self event w ids w1 Hrel Hne).
  now rewrite Hmatch.
Qed.

(** The runs of [process_event], in full. *)
Lemma process_event_cases self event w :
  let s := snd (run (process_event self event) w) in
  trace s = [Call_get_all_relevant_event_sources event]
  \/ (exists ids,
        ids <> []
        /\ trace s = [Call_get_all_relevant_event_sources event;
                      Call_get_matching_triggers ids event])
  \/ (exists ids trigger_ids,
        ids <> []
        /\ trace s = [Call_get_all_relevant_event_sources event;
                      Call_get_matching_triggers ids event;
                      Logger_info log_message trigger_ids]).
Proof.
  destruct (_get_all_relevant_event_sources self event w) as [[ids | e] w1] eqn:Hrel.
  - destruct ids as [| i ids].
    + left. now rewrite (process_event_nothing_relevant self event w w1 Hrel).
    + right. simpl.
      rewrite (process_event_relevant self event w (i :: ids) w1 Hrel);
        [| discriminate].
      destruct (_get_matching_triggers self (i :: ids) event w1)
        as [[trigger_ids | e] w2].
      * right. exists (i :: ids), trigger_ids. split; [discriminate | reflexivity].
      * left. exists (i :: ids). split; [discriminate | reflexivity].
  - left. simpl. now rewrite (process_event_relevant_raises self event w e w1 Hrel).
Qed.

(** X3.  Whatever the plugin, the event and the store, [process_event]
    starts with [_get_all_relevant_event_sources] on the event, makes at
    most three calls and never invokes [_create_event_source]. *)
Theorem process_event_never_creates self event w :
  let calls := trace (snd (run (process_event self event) w)) in
  hd_error calls = Some (Call_get_all_relevant_event_sources event)
  /\ List.length calls <= 3
  /\ existsb is_Call_create_event_source calls = false.
Proof.
  destruct (process_event_cases self event w)
    as [H | [(ids & _ & H) | (ids & trigger_ids & _ & H)]];
    simpl in *; rewrite H; simpl; repeat split; lia.
Qed.

(** X4.  Whatever the plugin, the request and the store,
    [create_event_source] makes no call at all or the single call of
    [_create_event_source] on the request it received: the persistence is
    never tried twice, nor on another request, and nothing else is
    called. *)
Theorem create_event_source_calls self event_source w :
  let calls :=
    trace (snd (run (create_event_source EventSourceConfig self event_source) w))
  in
  calls = [] \/ calls = [Call_create_event_source event_source].
Proof.
  simpl.
  destruct (_fail_if_event_source_configuration_invalid EventSourceConfig
              self event_source) as [[] | e] eqn:Hv.
  - right. now rewrite (create_event_source_goes_on _ _ _ w Hv).
  - left. now rewrite (create_event_source_stops _ _ _ e w Hv).
Qed.

(** X5.  [process_event] logs a list of trigger identifiers exactly when
    the relevant event sources are not empty and [_get_matching_triggers]
    returned that list on them. *)
Theorem process_event_logs_iff self event w trigger_ids :
  In (Logger_info log_message trigger_ids)
    (trace (snd (run (process_event self event) w)))
  <-> exists ids w1 w2,
        _get_all_relevant_event_sources self event w = (Ok ids, w1)
        /\ ids <> []
        /\ _get_matching_triggers self ids event w1 = (Ok trigger_ids, w2).
Proof.
  split.
  - destruct (_get_all_relevant_event_sources self event w)
      as [[ids | e] w1] eqn:Hrel.
    + destruct ids as [| i ids].
      * rewrite (process_event_nothing_relevant self event w w1 Hrel).
        simpl. intros [H | []]. discriminate H.
      * rewrite (process_event_relevant self event w (i :: ids) w1 Hrel);
          [| discriminate].
        destruct (_get_matching_triggers self (i :: ids) event w1)
          as [[t | e] w2] eqn:Hmatch; simpl.
        -- intros [H | [H | [H | []]]]; try discriminate H.
           injection H as <-.
           exists (i :: ids), w1, w2. repeat split; [discriminate | exact Hmatch].
        -- intros [H | [H | []]]; discriminate H.
    + rewrite (process_event_relevant_raises self event w e w1 Hrel).
      simpl. intros [H | []]. discriminate H.
  - intros (ids & w1 & w2 & Hrel & Hne & Hmatch).
    rewrite (process_event_relevant self event w ids w1 Hrel Hne), Hmatch.
    simpl. auto.
Qed.

(** X6.  When the two extension points of a plugin only read the store,
    [process_event] leaves the store as it found it, whatever the outcome
    of the run. *)
Theorem process_event_reads_only self event w :
  (forall ev w0, snd (_get_all_relevant_event_sources self ev w0) = w0) ->
  (forall ids ev w0, snd (_get_matching_triggers self ids ev w0) = w0) ->
  world (snd (run (process_event self event) w)) = w.
Proof.
  intros Hrel Hmatch.
  pose proof (Hrel event w) as Hr.
  destruct (_get_all_relevant_event_sources self event w)
    as [[ids | e] w1] eqn:Erel; simpl in Hr; subst w1.
  - destruct ids as [| i ids].
    + now rewrite (process_event_nothing_relevant self event w w Erel).
    + rewrite (process_event_relevant self event w (i :: ids) w Erel);
        [| discriminate].
      pose proof (Hmatch (i :: ids) event w) as Hm.
      destruct (_get_matching_triggers self (i :: ids) event w)
        as [[t | e] w2]; simpl in Hm; now subst.
  - now rewrite (process_event_relevant_raises self event w e w Erel).
Qed.

End Plugin_runs.

(* ===================================================================== *)
(** ** The vLLM deployment service *)
(* ===================================================================== *)

Section Dicts.

Import VLLM.

Lemma dict_get_set (k k' : string) (v : value) (d : Dict) :
  dict_get k (dict_set k' v d)
  = if String.eqb k k' then Some v else dict_get k d.
Proof.
  induction d as [| [k0 v0] d IH]; simpl.
  - reflexivity.
  - destruct (String.eqb_spec k' k0) as [-> | Hk0]; simpl.
    + now destruct (String.eqb k k0).
    + destruct (String.eqb_spec k k0) as [-> | Hk].
      * destruct (String.eqb_spec k0 k') as [E | _]; [now subst | reflexivity].
      * exact IH.
Qed.

Lemma dict_get_absent (k : string) (d : Dict) :
  ~ In k (dict_keys d) -> dict_get k d = None.
Proof.
  induction d as [| [k0 v0] d IH]; simpl; [easy |].
  intros H. destruct (String.eqb_spec k k0) as [-> | _]; [tauto |].
  apply IH. tauto.
Qed.

(** A lookup after [d.update(other)]: the binding of [other] if it has
    one, that of [d] otherwise. *)
Lemma dict_get_update (k : string) (other d : Dict) :
  NoDup (dict_keys other) ->
  dict_get k (dict_update d other)
  = match dict_get k other with
    | Some v => Some v
    | None => dict_get k d
    end.
Proof.
  unfold dict_update. revert d.
  induction other as [| [k0 v0] other IH]; intros d Hnd; simpl.
  - reflexivity.
  - inversion Hnd as [| ? ? Hnotin Hnd']; subst.
    rewrite (IH _ Hnd'), dict_get_set.
    destruct (String.eqb_spec k k0) as [-> | _].
    + now rewrite (dict_get_absent k0 other Hnotin).
    + reflexivity.
Qed.

End Dicts.

Section Service_runs.

Import VLLM.

Context {W Parser Client Completion : Type}.

Implicit Types (self : VLLMDeploymentService W Parser Client Completion).
Implicit Types (w : W) (data : value).

Ltac step H := rewrite H; simpl.
Ltac open_run :=
  unfold Run.run, VLLM.run, predict, prediction_url, Run.try_except, Run.bind,
    Run.invoke, Run.emit, Run.ret, Run.raise; simpl.

(** X7.  [predict] on a service that is not running raises the
    [Exception] that tells so, after the single question to the daemon:
    no client is made and nothing is sent. *)
Theorem predict_not_running self data w w1 :
  is_running self w = (Ok false, w1) ->
  Run.run (predict self data) w
  = (Raise (new_exn Exception
       [VStr "vLLM Inference service is not running. Please start the service before making predictions."]),
     {| Run.outside := w1; Run.calls := [Call_is_running] |}).
Proof. intros H. open_run. now step H. Qed.

(** X8.  [predict] asks the daemon three times.  When the first two
    answers are yes, the client is made with the key [EMPTY] and with the
    local URL if the third answer is yes, with no URL at all if it is no;
    the completion is asked of the first model that the server lists, on
    the data as received, and its outcome is the outcome of [predict]. *)
Theorem predict_request self data w w1 w2 w3 (b : bool) w4 client w5 m ms w6
    (r : result Completion) w7 :
  is_running self w = (Ok true, w1) ->
  is_running self w1 = (Ok true, w2) ->
  import_openai self w2 = (Ok tt, w3) ->
  is_running self w3 = (Ok b, w4) ->
  OpenAI self "EMPTY"
    (if b then Some "http://localhost:8000/v1"%string else None) w4
    = (Ok client, w5) ->
  models_list self client w5 = (Ok (m :: ms), w6) ->
  completions_create self client (id m) data w6 = (r, w7) ->
  Run.run (predict self data) w
  = (r,
     {| Run.outside := w7;
        Run.calls :=
          [Call_is_running; Call_is_running; Call_import_openai;
           Call_is_running;
           Call_OpenAI "EMPTY"
             (if b then Some "http://localhost:8000/v1"%string else None);
           Call_models_list;
           Call_completions_create (id m) data] |}).
Proof.
  intros H1 H2 H3 H4 H5 H6 H7. open_run.
  step H1. step H2. step H3. step H4.
  destruct b; simpl in *; step H5; step H6; step H7; now destruct r.
Qed.

(** X9.  When the server lists no model, [predict] raises [IndexError]
    and asks for no completion, whether the client was made with the local
    URL or, the service having stopped before the third question, with
    none. *)
Theorem predict_without_model self data w w1 w2 w3 (b : bool) w4 client w5
    w6 :
  is_running self w = (Ok true, w1) ->
  is_running self w1 = (Ok true, w2) ->
  import_openai self w2 = (Ok tt, w3) ->
  is_running self w3 = (Ok b, w4) ->
  OpenAI self "EMPTY"
    (if b then Some "http://localhost:8000/v1"%string else None) w4
    = (Ok client, w5) ->
  models_list self client w5 = (Ok [], w6) ->
  Run.run (predict self data) w
  = (Raise (new_exn IndexError [VStr "list index out of range"]),
     {| Run.outside := w6;
        Run.calls :=
          [Call_is_running; Call_is_running; Call_import_openai;
           Call_is_running;
           Call_OpenAI "EMPTY"
             (if b then Some "http://localhost:8000/v1"%string else None);
           Call_models_list] |}).
Proof.
  intros H1 H2 H3 H4 H5 H6. open_run.
  step H1. step H2. step H3. step H4.
  destruct b; simpl in *; step H5; now step H6.
Qed.

(** X10.  The [ValueError] of [predict] for an unknown endpoint is what a
    service gets that stops between the first and the second question: no
    client is made. *)
Theorem predict_stopped_meanwhile self data w w1 w2 :
  is_running self w = (Ok true, w1) ->
  is_running self w1 = (Ok false, w2) ->
  Run.run (predict self data) w
  = (Raise (new_exn ValueError [VStr "No endpoint known for prediction."]),
     {| Run.outside := w2;
        Run.calls := [Call_is_running; Call_is_running] |}).
Proof. intros H1 H2. open_run. step H1. now step H2. Qed.

Lemma run_reaches_server self w w1 parser w2 args w3 (r : result unit) w4 :
  import_vllm self w = (Ok tt, w1) ->
  make_arg_parser self w1 = (Ok parser, w2) ->
  parse_args self parser w2 = (Ok args, w3) ->
  run_server self (dict_update args (model_dump self)) w3 = (r, w4) ->
  Run.run (VLLM.run self) w
  = (match r with
     | Ok tt => Ok tt
     | Raise e => if isinstance e KeyboardInterrupt then Ok tt else Raise e
     end,
     {| Run.outside := w4;
        Run.calls :=
          [Logger_info
             "Starting vLLM inference server service as blocking process... press CTRL+C once to stop it.";
           Call_import_vllm; Call_make_arg_parser; Call_parse_args;
           Logger_info_Args args;
           Logger_info_Args (dict_update args (model_dump self));
           Call_run_server (dict_update args (model_dump self))]
          ++ match r with
             | Ok _ => []
             | Raise e =>
                 if isinstance e KeyboardInterrupt
                 then [Logger_info "Stopping vLLM prediction service..."]
                 else []
             end |}).
Proof.
  intros H1 H2 H3 H4. open_run.
  step H1. step H2. step H3. step H4.
  destruct r as [[] | e]; simpl; [reflexivity |].
  now destruct (isinstance e KeyboardInterrupt).
Qed.

(** X11.  [run] up to the server: the server is started on the parsed
    arguments updated with the dump of the configuration.  When it ends on
    a [KeyboardInterrupt], [run] logs that the service stops and returns
    [None]; any other exception of the server leaves [run] as it is, with
    no such record. *)
Theorem run_server_outcome self w w1 parser w2 args w3 (r : result unit) w4 :
  import_vllm self w = (Ok tt, w1) ->
  make_arg_parser self w1 = (Ok parser, w2) ->
  parse_args self parser w2 = (Ok args, w3) ->
  run_server self (dict_update args (model_dump self)) w3 = (r, w4) ->
  Run.run (VLLM.run self) w
  = (match r with
     | Ok tt => Ok tt
     | Raise e => if isinstance e KeyboardInterrupt then Ok tt else Raise e
     end,
     {| Run.outside := w4;
        Run.calls :=
          [Logger_info
             "Starting vLLM inference server service as blocking process... press CTRL+C once to stop it.";
           Call_import_vllm; Call_make_arg_parser; Call_parse_args;
           Logger_info_Args args;
           Logger_info_Args (dict_update args (model_dump self));
           Call_run_server (dict_update args (model_dump self))]
          ++ match r with
             | Ok _ => []
             | Raise e =>
                 if isinstance e KeyboardInterrupt
                 then [Logger_info "Stopping vLLM prediction service..."]
                 else []
             end |}).
Proof. exact (run_reaches_server self w w1 parser w2 args w3 r w4). Qed.

(** X12.  The imports of [run] come before its [try]: an exception they
    raise, a [KeyboardInterrupt] included, leaves [run] as it is, and the
    stop of the service is not logged. *)
Theorem run_import_fails self w e w1 :
  import_vllm self w = (Raise e, w1) ->
  Run.run (VLLM.run self) w
  = (Raise e,
     {| Run.outside := w1;
        Run.calls :=
          [Logger_info
             "Starting vLLM inference server service as blocking process... press CTRL+C once to stop it.";
           Call_import_vllm] |}).
Proof. intros H. open_run. now step H. Qed.

(** X13.  The arguments the server is started on: a field of the
    configuration replaces the parsed argument of the same name, also when
    the field holds [None]; the other arguments are those parsed. *)
Theorem run_configuration_overrides self w w1 parser w2 args w3 :
  import_vllm self w = (Ok tt, w1) ->
  make_arg_parser self w1 = (Ok parser, w2) ->
  parse_args self parser w2 = (Ok args, w3) ->
  NoDup (dict_keys (model_dump self)) ->
  exists served,
    In (Call_run_server served) (Run.calls (snd (Run.run (VLLM.run self) w)))
    /\ forall k,
         dict_get k served
         = match dict_get k (model_dump self) with
           | Some v => Some v
           | None => dict_get k args
           end.
Proof.
  intros H1 H2 H3 Hnd.
  exists (dict_update args (model_dump self)). split.
  - destruct (run_server self (dict_update args (model_dump self)) w3)
      as [r w4] eqn:H4.
    rewrite (run_reaches_server self w w1 parser w2 args w3 r w4 H1 H2 H3 H4).
    simpl. auto 10.
  - intros k. now apply dict_get_update.
Qed.

End Service_runs.

(* ===================================================================== *)
(** ** The migration *)
(* ===================================================================== *)

Section Migration_facts.

Import Migration.

Lemma has_column_added (c : Column) (cs : list Column) :
  has_column (column_name c) (cs ++ [c]) = true.
Proof.
  unfold has_column. rewrite existsb_app. simpl.
  rewrite String.eqb_refl. now rewrite orb_true_r.
Qed.

Lemma has_column_like_added (c : Column) (cs : list Column) :
  has_column_like (column_name c) (cs ++ [c]) = true.
Proof.
  unfold has_column_like, same_name. rewrite existsb_app. simpl.
  rewrite String.eqb_refl. now rewrite orb_true_r.
Qed.

(** A table without the name in any case has not the name itself. *)
Lemma has_column_unlike (name : string) (cs : list Column) :
  has_column_like name cs = false -> has_column name cs = false.
Proof.
  unfold has_column_like, has_column, same_name.
  induction cs as [| c cs IH]; simpl; [reflexivity |].
  intros H. apply orb_false_iff in H as [Hc Hcs].
  rewrite (IH Hcs), orb_false_r.
  destruct (String.eqb_spec (column_name c) name) as [E | _]; [| reflexivity].
  rewrite E, String.eqb_refl in Hc. discriminate Hc.
Qed.

(** Dropping by name the column just added gives the columns back. *)
Lemma drop_added (c : Column) (cs : list Column) :
  has_column (column_name c) cs = false ->
  filter (fun c' => negb (String.eqb (column_name c') (column_name c)))
    (cs ++ [c]) = cs.
Proof.
  intros H. rewrite filter_app. simpl. rewrite String.eqb_refl. simpl.
  rewrite app_nil_r.
  induction cs as [| c0 cs IH]; simpl in *; [reflexivity |].
  apply orb_false_iff in H as [H0 Hcs].
  rewrite H0. simpl. now rewrite (IH Hcs).
Qed.

Lemma has_column_dropped (name : string) (cs : list Column) :
  has_column name
    (filter (fun c => negb (String.eqb (column_name c) name)) cs) = false.
Proof.
  induction cs as [| c cs IH]; simpl; [reflexivity |].
  destruct (String.eqb (column_name c) name) eqn:E; simpl; [exact IH |].
  now rewrite E.
Qed.

Lemma apply_add_column (c : Column) (cs cs' : list Column) :
  apply_ops [add_column c] cs = Some cs' ->
  has_column_like (column_name c) cs = false /\ cs' = (cs ++ [c])%list.
Proof.
  cbn [apply_ops apply_op].
  destruct (has_column_like (column_name c) cs); [discriminate |].
  intros [= <-]. auto.
Qed.

Lemma apply_drop_column (name : string) (cs cs' : list Column) :
  apply_ops [drop_column name] cs = Some cs' ->
  has_column name cs = true
  /\ cs' = filter (fun c => negb (String.eqb (column_name c) name)) cs.
Proof.
  cbn [apply_ops apply_op].
  destruct (has_column name cs); [| discriminate].
  intros [= <-]. auto.
Qed.

(** A batch, by the table it finds. *)
Lemma batch_alter_table_spec (table : string) (ops : list batch_op)
    (db db' : Schema) :
  batch_alter_table table ops db = Some db' ->
  exists t cs,
    find_table table db = Some t
    /\ apply_ops ops (columns t) = Some cs
    /\ find_table table db'
       = Some {| table_name := table_name t; columns := cs |}
    /\ forall name, name <> table -> find_table name db' = find_table name db.
Proof.
  revert db'. induction db as [| t0 db IH]; simpl; intros db' H; [discriminate |].
  destruct (String.eqb_spec (table_name t0) table) as [E | NE].
  - destruct (apply_ops ops (columns t0)) as [cs |] eqn:Hops; [| discriminate].
    injection H as <-. exists t0, cs. simpl.
    destruct (String.eqb_spec (table_name t0) table) as [_ | C]; [| contradiction].
    repeat split; auto.
    intros name Hname.
    destruct (String.eqb_spec (table_name t0) name) as [E' | _]; [congruence | reflexivity].
  - destruct (batch_alter_table table ops db) as [r' |] eqn:Hrec; [| discriminate].
    injection H as <-.
    destruct (IH r' eq_refl) as (t & cs & Hfind & Hops & Hfind' & Hothers).
    exists t, cs. simpl.
    destruct (String.eqb_spec (table_name t0) table) as [C | _]; [contradiction |].
    repeat split; auto.
    intros name Hname.
    destruct (String.eqb (table_name t0) name); [reflexivity | now apply Hothers].
Qed.

(** Adding a column and dropping it by its name undo each other. *)
Lemma batch_add_drop (table : string) (c : Column) (db : Schema) (t : Table) :
  find_table table db = Some t ->
  has_column_like (column_name c) (columns t) = false ->
  exists db',
    batch_alter_table table [add_column c] db = Some db'
    /\ batch_alter_table table [drop_column (column_name c)] db' = Some db.
Proof.
  induction db as [| t0 db IH]; cbn [find_table]; [discriminate |].
  cbn [batch_alter_table apply_ops apply_op].
  destruct (String.eqb (table_name t0) table) eqn:E.
  - intros [= ->] Hcol. rewrite Hcol. eexists. split; [reflexivity |].
    cbn [batch_alter_table apply_ops apply_op table_name columns].
    rewrite E, (has_column_added c (columns t)),
      (drop_added c (columns t) (has_column_unlike _ _ Hcol)).
    now destruct t.
  - intros Hfind Hcol. destruct (IH Hfind Hcol) as (db' & Hup & Hdown).
    cbn [batch_alter_table apply_ops apply_op] in Hup, Hdown.
    rewrite Hup. eexists. split; [reflexivity |].
    cbn [batch_alter_table apply_ops apply_op]. rewrite E.
    now rewrite Hdown.
Qed.

(** X14.  On a database that has the table of the pipeline runs without a
    column of that name, in whatever case of the letters, [upgrade] goes
    through, and [downgrade] after it gives the database back as it was:
    tables, columns and their order. *)
Theorem downgrade_after_upgrade (db : Schema) (t : Table) :
  find_table "pipelinerunschema" db = Some t ->
  has_column_like "orchestrator_run_id" (columns t) = false ->
  exists db', upgrade db = Some db' /\ downgrade db' = Some db.
Proof.
  intros Hfind Hcol.
  exact (batch_add_drop "pipelinerunschema" orchestrator_run_id db t Hfind Hcol).
Qed.

(** X15.  What [upgrade] changes when it goes through: the table of the
    pipeline runs gets one more column, last, named
    [orchestrator_run_id], of type [AutoString] and nullable; its other
    columns and every other table are as before. *)
Theorem upgrade_adds_one_column (db db' : Schema) :
  upgrade db = Some db' ->
  exists t,
    find_table "pipelinerunschema" db = Some t
    /\ find_table "pipelinerunschema" db'
       = Some {| table_name := table_name t;
                 columns := columns t
                            ++ [ {| column_name := "orchestrator_run_id";
                                    column_type := AutoString;
                                    nullable := true |} ] |}
    /\ forall name,
         name <> "pipelinerunschema"%string ->
         find_table name db' = find_table name db.
Proof.
  intros H. apply batch_alter_table_spec in H
    as (t & cs & Hfind & Hops & Hfind' & Hothers).
  exists t. apply apply_add_column in Hops as [_ ->]. auto.
Qed.

(** X16.  [upgrade] cannot be repeated: it is refused on a database that
    [upgrade] produced, for the column is there. *)
Theorem upgrade_not_repeatable (db db' : Schema) :
  upgrade db = Some db' -> upgrade db' = None.
Proof.
  intros H.
  apply batch_alter_table_spec in H
    as (t & cs & Hfind & Hops & Hfind' & Hothers).
  destruct (upgrade db') as [db'' |] eqn:H2; [| reflexivity].
  apply batch_alter_table_spec in H2 as (t' & cs' & Hf & Ho & _).
  rewrite Hfind' in Hf. injection Hf as <-.
  apply apply_add_column in Hops as [_ ->].
  apply apply_add_column in Ho as [Ho _]. cbn [columns] in Ho.
  now rewrite (has_column_like_added orchestrator_run_id (columns t)) in Ho.
Qed.

(** X17.  [downgrade] cannot be repeated: it is refused on a database that
    [downgrade] produced, for the column is gone. *)
Theorem downgrade_not_repeatable (db db' : Schema) :
  downgrade db = Some db' -> downgrade db' = None.
Proof.
  intros H.
  apply batch_alter_table_spec in H
    as (t & cs & Hfind & Hops & Hfind' & Hothers).
  destruct (downgrade db') as [db'' |] eqn:H2; [| reflexivity].
  apply batch_alter_table_spec in H2 as (t' & cs' & Hf & Ho & _).
  rewrite Hfind' in Hf. injection Hf as <-.
  apply apply_drop_column in Hops as [_ ->].
  apply apply_drop_column in Ho as [Ho _]. cbn [columns] in Ho.
  now rewrite has_column_dropped in Ho.
Qed.

End Migration_facts.

(* ===================================================================== *)
(** ** The added theorems at work *)
(* ===================================================================== *)

Section Runs_on_the_machines.

Import Webhook Outage.

(** The store is down at the first query. *)
Lemma process_event_relevant_sources_fail_witness :
  _get_all_relevant_event_sources DownPlugin push_to_main store
    = (Raise unavailable, store)
  /\ run (process_event DownPlugin push_to_main) store
     = (Raise unavailable,
        {| world := store;
           trace := [Call_get_all_relevant_event_sources push_to_main] |}).
Proof.
  split; [reflexivity |].
  apply (process_event_relevant_sources_fail DownPlugin push_to_main store
           unavailable store); reflexivity.
Defined.

(** The store is down at the second query. *)
Lemma process_event_matching_triggers_fail_witness :
  _get_all_relevant_event_sources HalfDownPlugin push_to_main store
    = (Ok [1%N; 2%N], store)
  /\ [1%N; 2%N] <> []
  /\ _get_matching_triggers HalfDownPlugin [1%N; 2%N] push_to_main store
     = (Raise unavailable, store)
  /\ run (process_event HalfDownPlugin push_to_main) store
     = (Raise unavailable,
        {| world := store;
           trace := [Call_get_all_relevant_event_sources push_to_main;
                     Call_get_matching_triggers [1%N; 2%N] push_to_main] |}).
Proof.
  split; [reflexivity |]. split; [discriminate |]. split; [reflexivity |].
  apply (process_event_matching_triggers_fail HalfDownPlugin push_to_main
           store [1%N; 2%N] store unavailable store);
    [reflexivity | discriminate | reflexivity].
Defined.

(** The extension points of the webhook plugin only read the store. *)
Lemma process_event_reads_only_witness :
  (forall ev w0,
     snd (_get_all_relevant_event_sources WebhookEventSourcePlugin ev w0) = w0)
  /\ (forall ids ev w0,
        snd (_get_matching_triggers WebhookEventSourcePlugin ids ev w0) = w0)
  /\ world (snd (run (process_event WebhookEventSourcePlugin push_to_main)
                   store)) = store.
Proof.
  split; [intros; reflexivity |]. split; [intros; reflexivity |].
  apply (process_event_reads_only WebhookEventSourcePlugin push_to_main store);
    intros; reflexivity.
Defined.

End Runs_on_the_machines.

Section Runs_of_the_service.

Import VLLM LocalMachine.

Lemma predict_not_running_witness :
  is_running serving [false] = (Ok false, [])
  /\ Run.run (predict serving (VStr "Hello")) [false]
     = (Raise (new_exn Exception
          [VStr "vLLM Inference service is not running. Please start the service before making predictions."]),
        {| Run.outside := []; Run.calls := [Call_is_running] |}).
Proof.
  split; [reflexivity |].
  apply (predict_not_running serving (VStr "Hello") [false] []); reflexivity.
Defined.

(** The service stops between the second and the third question: the
    client is made without a URL. *)
Lemma predict_request_witness :
  is_running serving [true; true; false] = (Ok true, [true; false])
  /\ is_running serving [true; false] = (Ok true, [false])
  /\ import_openai serving [false] = (Ok tt, [false])
  /\ is_running serving [false] = (Ok false, [])
  /\ OpenAI serving "EMPTY" None [] = (Ok None, [])
  /\ models_list serving None [] = (Ok [opt], [])
  /\ completions_create serving None (id opt) (VStr "Hello") []
     = (Ok (echo "facebook/opt-125m" (VStr "Hello")), [])
  /\ Run.run (predict serving (VStr "Hello")) [true; true; false]
     = (Ok (echo "facebook/opt-125m" (VStr "Hello")),
        {| Run.outside := [];
           Run.calls :=
             [Call_is_running; Call_is_running; Call_import_openai;
              Call_is_running; Call_OpenAI "EMPTY" None; Call_models_list;
              Call_completions_create (id opt) (VStr "Hello")] |}).
Proof.
  repeat (split; [reflexivity |]).
  apply (predict_request serving (VStr "Hello") [true; true; false]
           [true; false] [false] [false] false [] None [] opt [] []
           (Ok (echo "facebook/opt-125m" (VStr "Hello"))) []);
    reflexivity.
Defined.

Lemma predict_without_model_witness :
  is_running without_model [true; true; true] = (Ok true, [true; true])
  /\ is_running without_model [true; true] = (Ok true, [true])
  /\ import_openai without_model [true] = (Ok tt, [true])
  /\ is_running without_model [true] = (Ok true, [])
  /\ OpenAI without_model "EMPTY" (Some "http://localhost:8000/v1"%string) []
     = (Ok (Some "http://localhost:8000/v1"%string), [])
  /\ models_list without_model (Some "http://localhost:8000/v1"%string) []
     = (Ok [], [])
  /\ Run.run (predict without_model (VStr "Hello")) [true; true; true]
     = (Raise (new_exn IndexError [VStr "list index out of range"]),
        {| Run.outside := [];
           Run.calls :=
             [Call_is_running; Call_is_running; Call_import_openai;
              Call_is_running;
              Call_OpenAI "EMPTY" (Some "http://localhost:8000/v1"%string);
              Call_models_list] |}).
Proof.
  repeat (split; [reflexivity |]).
  apply (predict_without_model without_model (VStr "Hello")
           [true; true; true] [true; true] [true] [true] true []
           (Some "http://localhost:8000/v1"%string) [] []);
    reflexivity.
Defined.

Lemma predict_stopped_meanwhile_witness :
  is_running serving [true; false] = (Ok true, [false])
  /\ is_running serving [false] = (Ok false, [])
  /\ Run.run (predict serving (VStr "Hello")) [true; false]
     = (Raise (new_exn ValueError [VStr "No endpoint known for prediction."]),
        {| Run.outside := [];
           Run.calls := [Call_is_running; Call_is_running] |}).
Proof.
  repeat (split; [reflexivity |]).
  apply (predict_stopped_meanwhile serving (VStr "Hello") [true; false]
           [false] []); reflexivity.
Defined.

(** CTRL+C while the server runs. *)
Lemma run_server_outcome_witness :
  import_vllm interrupted [] = (Ok tt, [])
  /\ make_arg_parser interrupted [] = (Ok tt, [])
  /\ parse_args interrupted tt [] = (Ok argv, [])
  /\ run_server interrupted (dict_update argv (model_dump interrupted)) []
     = (Raise ctrl_c, [])
  /\ Run.run (VLLM.run interrupted) []
     = (Ok tt,
        {| Run.outside := [];
           Run.calls :=
             [Logger_info
                "Starting vLLM inference server service as blocking process... press CTRL+C once to stop it.";
              Call_import_vllm; Call_make_arg_parser; Call_parse_args;
              Logger_info_Args argv;
              Logger_info_Args (dict_update argv (model_dump interrupted));
              Call_run_server (dict_update argv (model_dump interrupted));
              Logger_info "Stopping vLLM prediction service..."] |}).
Proof.
  repeat (split; [reflexivity |]).
  apply (run_server_outcome interrupted [] [] tt [] argv [] (Raise ctrl_c) []);
    reflexivity.
Defined.

(** CTRL+C while the libraries are imported. *)
Lemma run_import_fails_witness :
  import_vllm interrupted_early [] = (Raise ctrl_c, [])
  /\ Run.run (VLLM.run interrupted_early) []
     = (Raise ctrl_c,
        {| Run.outside := [];
           Run.calls :=
             [Logger_info
                "Starting vLLM inference server service as blocking process... press CTRL+C once to stop it.";
              Call_import_vllm] |}).
Proof.
  split; [reflexivity |].
  apply (run_import_fails interrupted_early [] ctrl_c []); reflexivity.
Defined.

Lemma default_config_keys : NoDup (dict_keys (model_dump serving)).
Proof.
  repeat (constructor; [simpl; intuition discriminate |]). constructor.
Defined.

(** The configuration sets no model: the server gets [None] for the model,
    not the one the parser chose, and keeps the parsed port. *)
Lemma run_configuration_overrides_witness :
  import_vllm serving [] = (Ok tt, [])
  /\ make_arg_parser serving [] = (Ok tt, [])
  /\ parse_args serving tt [] = (Ok argv, [])
  /\ NoDup (dict_keys (model_dump serving))
  /\ exists served,
       In (Call_run_server served)
         (Run.calls (snd (Run.run (VLLM.run serving) [])))
       /\ forall k,
            dict_get k served
            = match dict_get k (model_dump serving) with
              | Some v => Some v
              | None => dict_get k argv
              end.
Proof.
  repeat (split; [reflexivity |]).
  split; [exact default_config_keys |].
  apply (run_configuration_overrides serving [] [] tt [] argv []);
    try reflexivity.
  exact default_config_keys.
Defined.

Example unset_model_overrides_parsed_model :
  dict_get "model" argv = Some (VStr "facebook/opt-125m")
  /\ dict_get "model" (dict_update argv (model_dump serving)) = Some VNone
  /\ dict_get "port" (dict_update argv (model_dump serving)) = Some (VInt 8000).
Proof. repeat split. Qed.

End Runs_of_the_service.

Section Runs_of_the_migration.

Import Migration.

Lemma downgrade_after_upgrade_witness :
  find_table "pipelinerunschema" before = Some pipeline_runs
  /\ has_column_like "orchestrator_run_id" (columns pipeline_runs) = false
  /\ exists db', upgrade before = Some db' /\ downgrade db' = Some before.
Proof.
  split; [reflexivity |]. split; [reflexivity |].
  apply (downgrade_after_upgrade before pipeline_runs); reflexivity.
Defined.

Lemma upgrade_adds_one_column_witness :
  upgrade before = Some migrated
  /\ exists t,
       find_table "pipelinerunschema" before = Some t
       /\ find_table "pipelinerunschema" migrated
          = Some {| table_name := table_name t;
                    columns := columns t
                               ++ [ {| column_name := "orchestrator_run_id";
                                       column_type := AutoString;
                                       nullable := true |} ] |}
       /\ forall name,
            name <> "pipelinerunschema"%string ->
            find_table name migrated = find_table name before.
Proof.
  split; [reflexivity |].
  apply (upgrade_adds_one_column before migrated); reflexivity.
Defined.

Lemma upgrade_not_repeatable_witness :
  upgrade before = Some migrated /\ upgrade migrated = None.
Proof.
  split; [reflexivity |].
  apply (upgrade_not_repeatable before migrated); reflexivity.
Defined.

Lemma downgrade_not_repeatable_witness :
  downgrade migrated = Some before /\ downgrade before = None.
Proof.
  split; [reflexivity |].
  apply (downgrade_not_repeatable migrated before); reflexivity.
Defined.

End Runs_of_the_migration.
